(** * Patch datasets over point clouds: [datasets/base_patch_dataset.py]

    A shallow embedding of the indexing core of the module: the
    multi-cloud aggregator ([BaseMultiCloudPatchDataset]), the 2D grid
    patcher ([Grid2DPatchDataset]) with its box membership query, and
    the nearest-neighbour queries of [BaseBallPointCloud].

    Modelling conventions.
    - Python integers are [Z]; the value of [len(...)] is a [nat]
      (Python's [len] never answers a negative number).
    - Coordinates, block sizes and margins are finite numbers, held as
      rationals ([Q]); comparisons, [min] and [max] are exact on
      floats as they are on rationals.
    - Where the program turns a float into an integer, [math.ceil] in
      the grid constructor, the operands are rounded as the tensor
      arithmetic rounds them: IEEE 754 round-to-nearest-even in the
      format of the position tensor, with overflow to infinity and
      NaN for 0/0.
    - A Python call either returns a value, returns [None] by falling off
      the end of the function, or raises: type [result]. *)

From Stdlib Require Import ZArith QArith Qround Qminmax Qpower List Bool Lia Lqa.
From Stdlib Require Import Sorting.Sorted Sorting.Permutation.
Import ListNotations.

(** ** Outcomes of Python calls *)

(** The error kinds named by the specification, followed by the built-in
    Python exceptions that the module's code can raise. *)
Inductive error : Type :=
| IndexOutOfRangeError
| InvalidConfigurationError
| InsufficientPointsError
| EmptyInputError
| ZeroDivisionError
| OverflowError
| ValueError
| RuntimeError
| TypeError.

Inductive result (A : Type) : Type :=
| Value (a : A)
| NoneResult
| Raise (e : error).

Arguments Value {A} a.
Arguments NoneResult {A}.
Arguments Raise {A} e.

(** Sequencing: the continuation runs on a returned value and an
    exception propagates. Every continuation below unpacks the value or
    computes with it, which on [None] raises [TypeError]. *)
Definition bind {A B : Type} (r : result A) (k : A -> result B) : result B :=
  match r with
  | Value a => k a
  | NoneResult => Raise TypeError
  | Raise e => Raise e
  end.

Notation "x <- r ;; k" := (bind r (fun x => k))
  (at level 61, r at next level, right associativity).

(** ** BaseMultiCloudPatchDataset *)

Module MultiCloud.

Local Open Scope Z_scope.

Section Aggregator.

(** What [pds[j]] answers: a patch of some type [P]. *)
Variable P : Type.

(** A patch dataset as the aggregator sees it: [len(pds)] and [pds[j]]. *)
Record PatchDataset : Type := {
  pd_len : nat;
  pd_getitem : Z -> result P
}.

Definition len (pd : PatchDataset) : Z := Z.of_nat (pd_len pd).

(** [__len__]: [sum(len(pd) for pd in self.patch_datasets)]; Python's
    [sum] starts from 0 and adds from the left. *)
Definition __len__ (patch_datasets : list PatchDataset) : Z :=
  fold_left (fun acc pd => acc + len pd) patch_datasets 0.

(** The [for] loop of [__getitem__], with the running offset [i]. *)
Fixpoint getitem_loop (pdss : list PatchDataset) (i idx : Z) : result P :=
  match pdss with
  | [] => NoneResult
  | pds :: rest =>
      if idx <? i + len pds then pd_getitem pds (idx - i)
      else getitem_loop rest (i + len pds) idx
  end.

(** [__getitem__]: [i = 0], then the loop; falling out of the loop
    is falling off the end of the function. *)
Definition __getitem__ (patch_datasets : list PatchDataset) (idx : Z)
  : result P :=
  getitem_loop patch_datasets 0 idx.

(** Sum of the lengths of the datasets before position [j]. *)
Definition offset (patch_datasets : list PatchDataset) (j : nat) : Z :=
  __len__ (firstn j patch_datasets).

(** The mathematical sum of the lengths, against which [__len__] is
    compared. *)
Definition sum_of_lengths (patch_datasets : list PatchDataset) : Z :=
  fold_right Z.add 0 (map len patch_datasets).

(** Dataset [j] owns the global index [idx]. *)
Definition owns (patch_datasets : list PatchDataset) (j : nat) (idx : Z)
  : Prop :=
  exists pds, nth_error patch_datasets j = Some pds /\
    offset patch_datasets j <= idx < offset patch_datasets j + len pds.

(** *** Auxiliary facts *)

Lemma fold_len_acc (l : list PatchDataset) (a b : Z) :
  fold_left (fun acc pd => acc + len pd) l (a + b)
  = a + fold_left (fun acc pd => acc + len pd) l b.
Proof.
  revert b. induction l as [|pd l IH]; intros b; simpl.
  - reflexivity.
  - rewrite <- IH. f_equal. lia.
Qed.

Lemma fold_len_shift (l : list PatchDataset) (a : Z) :
  fold_left (fun acc pd => acc + len pd) l a = a + __len__ l.
Proof.
  unfold __len__. rewrite <- fold_len_acc. f_equal. lia.
Qed.

Lemma len_cons (pd : PatchDataset) (l : list PatchDataset) :
  __len__ (pd :: l) = len pd + __len__ l.
Proof.
  unfold __len__ at 1. simpl. rewrite fold_len_shift. lia.
Qed.

Lemma len_nonneg (l : list PatchDataset) : 0 <= __len__ l.
Proof.
  induction l as [|pd l IH].
  - unfold __len__; simpl; lia.
  - rewrite len_cons. unfold len. lia.
Qed.

Lemma offset_0 (l : list PatchDataset) : offset l 0 = 0.
Proof. reflexivity. Qed.

Lemma offset_S (pd : PatchDataset) (l : list PatchDataset) (j : nat) :
  offset (pd :: l) (S j) = len pd + offset l j.
Proof. unfold offset. simpl firstn. apply len_cons. Qed.

Lemma offset_nonneg (l : list PatchDataset) (j : nat) : 0 <= offset l j.
Proof. apply len_nonneg. Qed.

(** The loop started at offset [i] behaves as the loop started at 0
    on the index shifted by [i]. *)
Lemma getitem_loop_shift (l : list PatchDataset) (i idx : Z) :
  getitem_loop l i idx = getitem_loop l 0 (idx - i).
Proof.
  revert i idx. induction l as [|pd l IH]; intros i idx.
  - reflexivity.
  - cbn [getitem_loop].
    destruct (Z.ltb_spec idx (i + len pd));
      destruct (Z.ltb_spec (idx - i) (0 + len pd)); try lia.
    + f_equal; lia.
    + rewrite (IH (i + len pd)), (IH (0 + len pd)). f_equal; lia.
Qed.

Lemma getitem_cons_hit (pd : PatchDataset) (l : list PatchDataset) (idx : Z) :
  idx < len pd -> __getitem__ (pd :: l) idx = pd_getitem pd idx.
Proof.
  intros H. unfold __getitem__. cbn [getitem_loop].
  destruct (Z.ltb_spec idx (0 + len pd)); [|lia].
  f_equal; lia.
Qed.

Lemma getitem_cons_miss (pd : PatchDataset) (l : list PatchDataset) (idx : Z) :
  len pd <= idx -> __getitem__ (pd :: l) idx = __getitem__ l (idx - len pd).
Proof.
  intros H. unfold __getitem__. cbn [getitem_loop].
  destruct (Z.ltb_spec idx (0 + len pd)); [lia|].
  rewrite getitem_loop_shift. f_equal; lia.
Qed.

(** Past the end the scan finds no owner and the function returns
    nothing. *)
Lemma getitem_past_end (l : list PatchDataset) (idx : Z) :
  __len__ l <= idx -> __getitem__ l idx = NoneResult.
Proof.
  revert idx. induction l as [|pd l IH]; intros idx H.
  - reflexivity.
  - rewrite len_cons in H. pose proof (len_nonneg l).
    rewrite getitem_cons_miss by lia. apply IH. lia.
Qed.

(** In range, some dataset owns the index and the scan answers with
    that dataset's patch. *)
Lemma getitem_owner (l : list PatchDataset) (idx : Z) :
  0 <= idx < __len__ l ->
  exists j pds, nth_error l j = Some pds /\
    offset l j <= idx < offset l j + len pds /\
    __getitem__ l idx = pd_getitem pds (idx - offset l j).
Proof.
  revert idx. induction l as [|pd l IH]; intros idx H.
  - unfold __len__ in H; simpl in H; lia.
  - rewrite len_cons in H.
    destruct (Z_lt_le_dec idx (len pd)) as [Hlt|Hge].
    + exists 0%nat, pd. rewrite offset_0. repeat split; try lia.
      rewrite getitem_cons_hit by lia. f_equal; lia.
    + destruct (IH (idx - len pd)) as (j & pds & Hn & Hr & Hg); [lia|].
      exists (S j), pds. rewrite offset_S. repeat split; try lia.
      * exact Hn.
      * rewrite getitem_cons_miss by lia. rewrite Hg. f_equal. lia.
Qed.

(** Offsets grow with the position, by at least the length of every
    dataset in between. *)
Lemma offset_mono (l : list PatchDataset) (j k : nat) (pds : PatchDataset) :
  nth_error l j = Some pds -> (j < k)%nat ->
  offset l j + len pds <= offset l k.
Proof.
  revert j k. induction l as [|pd l IH]; intros j k Hn Hjk.
  - destruct j; discriminate.
  - destruct k as [|k]; [lia|]. destruct j as [|j].
    + simpl in Hn. injection Hn as ->. rewrite offset_0, offset_S.
      pose proof (offset_nonneg l k). lia.
    + simpl in Hn. rewrite !offset_S.
      specialize (IH j k Hn). lia.
Qed.

Lemma owner_unique (l : list PatchDataset) (idx : Z) (j k : nat) :
  owns l j idx -> owns l k idx -> j = k.
Proof.
  intros (p & Hp & Hr) (q & Hq & Hs).
  destruct (Nat.lt_trichotomy j k) as [Hlt|[Heq|Hgt]]; [|exact Heq|].
  - pose proof (offset_mono l j k p Hp Hlt). lia.
  - pose proof (offset_mono l k j q Hq Hgt). lia.
Qed.

Lemma len_sum (l : list PatchDataset) : __len__ l = sum_of_lengths l.
Proof.
  induction l as [|pd l IH].
  - reflexivity.
  - rewrite len_cons, IH. reflexivity.
Qed.

End Aggregator.

Arguments Build_PatchDataset {P} pd_len pd_getitem.
Arguments pd_len {P} p.
Arguments pd_getitem {P} p j.
Arguments len {P} pd.
Arguments __len__ {P} patch_datasets.
Arguments getitem_loop {P} pdss i idx.
Arguments __getitem__ {P} patch_datasets idx.
Arguments sum_of_lengths {P} patch_datasets.
Arguments offset {P} patch_datasets j.
Arguments owns {P} patch_datasets j idx.

(** *** A concrete aggregator: three sources of lengths 2, 0 and 3

    A patch is named by the pair (source number, local index); a source
    raises on a local index outside its own range. *)

Definition mk_source (id : Z) (n : nat) : PatchDataset (Z * Z) :=
  {| pd_len := n;
     pd_getitem := fun j =>
       if (0 <=? j) && (j <? Z.of_nat n) then Value (id, j)
       else Raise IndexOutOfRangeError |}.

Definition three_sources : list (PatchDataset (Z * Z)) :=
  [mk_source 0 2; mk_source 1 0; mk_source 2 3].

Example three_sources_len : __len__ three_sources = 5.
Proof. reflexivity. Qed.

Example three_sources_get :
  map (__getitem__ three_sources) [0; 1; 2; 3; 4]
  = [Value (0, 0); Value (0, 1); Value (2, 0); Value (2, 1); Value (2, 2)].
Proof. reflexivity. Qed.

(** *** Claims on the aggregator *)

(** C1 (as stated, refuted): with sources of lengths 2, 0 and 3 the
    total length is 5, and [get(5)] does not fail with
    [IndexOutOfRangeError]: the loop ends and the function returns
    nothing. *)
Lemma C1_get_past_end_no_error :
  __len__ three_sources <= 5 /\
  __getitem__ three_sources 5 <> Raise IndexOutOfRangeError /\
  __getitem__ three_sources 5 = NoneResult.
Proof.
  split; [|split].
  - rewrite three_sources_len. lia.
  - discriminate.
  - reflexivity.
Qed.

(** C1 (amended): for every aggregator and every global index greater
    than or equal to the sum of the sources' lengths, [get] raises no
    error: the scan falls through all sources and the call returns
    [None]. *)
Theorem C1_get_past_end_returns_none
  (P : Type) (pds : list (PatchDataset P)) (idx : Z) :
  sum_of_lengths pds <= idx ->
  __getitem__ pds idx = NoneResult /\
  forall e, __getitem__ pds idx <> Raise e.
Proof.
  intros H. rewrite <- len_sum in H.
  rewrite (getitem_past_end P pds idx H). split; [reflexivity | discriminate].
Qed.

Lemma C1_get_past_end_returns_none_witness :
  sum_of_lengths three_sources <= 7 /\
  __getitem__ three_sources 7 = NoneResult.
Proof.
  assert (H : sum_of_lengths three_sources <= 7) by (vm_compute; discriminate).
  split; [exact H|].
  exact (proj1 (C1_get_past_end_returns_none _ three_sources 7 H)).
Defined.

(** C8: the aggregator's length is the sum of the sources' lengths, and
    every global index in range has exactly one owning source [j], the
    one with [offset j <= idx < offset j + length j], where [offset j]
    is the sum of the lengths of the sources before [j]; [get] answers
    with that source's patch at local index [idx - offset j].
    Sources of length zero own nothing and are passed over. *)
Theorem C8_aggregator_linear_index
  (P : Type) (pds : list (PatchDataset P)) :
  __len__ pds = sum_of_lengths pds /\
  (forall j, offset pds j = sum_of_lengths (firstn j pds)) /\
  forall idx, 0 <= idx < __len__ pds ->
    exists j s,
      nth_error pds j = Some s /\
      offset pds j <= idx < offset pds j + len s /\
      (forall k, owns pds k idx -> k = j) /\
      __getitem__ pds idx = pd_getitem s (idx - offset pds j).
Proof.
  split; [apply len_sum|]. split; [intros j; apply len_sum|].
  intros idx H.
  destruct (getitem_owner P pds idx H) as (j & s & Hn & Hr & Hg).
  exists j, s. repeat split; try assumption; try lia.
  intros k Hk. apply (owner_unique P pds idx); [exact Hk|].
  exists s. split; [exact Hn | lia].
Qed.

Lemma C8_aggregator_linear_index_witness :
  0 <= 3 < __len__ three_sources /\
  exists j s, nth_error three_sources j = Some s /\
    __getitem__ three_sources 3 = pd_getitem s (3 - offset three_sources j).
Proof.
  assert (H : 0 <= 3 < __len__ three_sources) by (vm_compute; split; congruence).
  split; [exact H|].
  destruct (proj2 (proj2 (C8_aggregator_linear_index _ three_sources)) 3 H)
    as (j & s & Hn & _ & _ & Hg).
  exists j, s. split; assumption.
Defined.

(** *** Further behaviour of the aggregator *)

Section AggregatorMore.

Variable P : Type.

(** An aggregator is itself something with a length and an item
    access, so it can stand as a source of another aggregator. *)
Definition as_source (patch_datasets : list (PatchDataset P)) : PatchDataset P :=
  {| pd_len := Z.to_nat (__len__ patch_datasets);
     pd_getitem := __getitem__ patch_datasets |}.

(** The sources that hold at least one patch. *)
Definition non_empty_sources (patch_datasets : list (PatchDataset P))
  : list (PatchDataset P) :=
  filter (fun pd => negb (Nat.eqb (pd_len pd) 0)) patch_datasets.

Lemma len_as_source (l : list (PatchDataset P)) : len (as_source l) = __len__ l.
Proof.
  unfold len, as_source. cbn [pd_len]. pose proof (len_nonneg P l). lia.
Qed.

Lemma len_app (l1 l2 : list (PatchDataset P)) :
  __len__ (l1 ++ l2) = __len__ l1 + __len__ l2.
Proof.
  induction l1 as [|pd l1 IH]; simpl app.
  - reflexivity.
  - rewrite !len_cons, IH. lia.
Qed.

Lemma getitem_app (l1 l2 : list (PatchDataset P)) (idx : Z) :
  0 <= idx ->
  __getitem__ (l1 ++ l2) idx
  = if idx <? __len__ l1 then __getitem__ l1 idx
    else __getitem__ l2 (idx - __len__ l1).
Proof.
  revert idx. induction l1 as [|pd l1 IH]; intros idx H; simpl app.
  - change (__len__ (@nil (PatchDataset P))) with 0.
    destruct (Z.ltb_spec idx 0); [lia|]. f_equal; lia.
  - rewrite len_cons. pose proof (len_nonneg P l1).
    assert (0 <= len pd) by (unfold len; lia).
    destruct (Z_lt_le_dec idx (len pd)) as [Hlt|Hge].
    + rewrite !getitem_cons_hit by lia.
      destruct (Z.ltb_spec idx (len pd + __len__ l1)); [reflexivity | lia].
    + rewrite !getitem_cons_miss by lia. rewrite IH by lia.
      destruct (Z.ltb_spec (idx - len pd) (__len__ l1));
        destruct (Z.ltb_spec idx (len pd + __len__ l1)); try lia.
      * reflexivity.
      * f_equal; lia.
Qed.

(** X1: a negative index is not counted from the end of the
    aggregate: it is handed unchanged to the first source, whatever the
    length of that source, and an aggregator without sources returns
    nothing. *)
Theorem X1_negative_index_goes_to_first_source
  (l : list (PatchDataset P)) (idx : Z) :
  idx < 0 ->
  __getitem__ l idx
  = match l with
    | [] => NoneResult
    | pd :: _ => pd_getitem pd idx
    end.
Proof.
  intros H. destruct l as [|pd l]; [reflexivity|].
  apply getitem_cons_hit. unfold len. lia.
Qed.

(** X2: aggregators nest. An aggregator over aggregators has the
    length of the aggregator over all their sources in order, and
    answers every non-negative index as that flat aggregator does. *)
Theorem X2_nested_aggregators_flatten
  (groups : list (list (PatchDataset P))) :
  __len__ (map as_source groups) = __len__ (concat groups) /\
  forall idx, 0 <= idx ->
    __getitem__ (map as_source groups) idx = __getitem__ (concat groups) idx.
Proof.
  induction groups as [|g groups [IHlen IHget]]; [split; reflexivity|].
  cbn [map concat]. split.
  - rewrite len_cons, len_app, len_as_source, IHlen. reflexivity.
  - intros idx H. rewrite getitem_app by exact H.
    pose proof (len_nonneg P g).
    destruct (Z.ltb_spec idx (__len__ g)).
    + rewrite getitem_cons_hit by (rewrite len_as_source; lia). reflexivity.
    + rewrite getitem_cons_miss by (rewrite len_as_source; lia).
      rewrite len_as_source. apply IHget. lia.
Qed.

(** X3: sources of length zero are transparent: leaving them out
    changes neither the length nor the answer to any non-negative
    index. *)
Theorem X3_empty_sources_are_transparent (l : list (PatchDataset P)) :
  __len__ (non_empty_sources l) = __len__ l /\
  forall idx, 0 <= idx ->
    __getitem__ (non_empty_sources l) idx = __getitem__ l idx.
Proof.
  unfold non_empty_sources.
  induction l as [|pd l [IHlen IHget]]; [split; reflexivity|].
  cbn [filter]. destruct (Nat.eqb_spec (pd_len pd) 0) as [Hz|Hnz]; cbn [negb].
  - assert (Hl : len pd = 0) by (unfold len; lia). split.
    + rewrite len_cons, IHlen. lia.
    + intros idx H. rewrite getitem_cons_miss by lia.
      rewrite Hl, Z.sub_0_r. apply IHget, H.
  - split.
    + rewrite !len_cons, IHlen. reflexivity.
    + intros idx H. destruct (Z_lt_le_dec idx (len pd)).
      * rewrite !getitem_cons_hit by lia. reflexivity.
      * rewrite !getitem_cons_miss by lia. apply IHget. lia.
Qed.

(** X4: the aggregator produces nothing of its own: whenever it
    returns a value or raises, that outcome is the outcome of one of
    its sources at a local index below that source's length, and the
    local index is non-negative when the global one is. *)
Theorem X4_outcome_comes_from_a_source
  (l : list (PatchDataset P)) (idx : Z) :
  __getitem__ l idx <> NoneResult ->
  exists pd j,
    In pd l /\ __getitem__ l idx = pd_getitem pd j /\
    j < len pd /\ (0 <= idx -> 0 <= j).
Proof.
  revert idx. induction l as [|pd l IH]; intros idx H.
  - exfalso. apply H. reflexivity.
  - destruct (Z_lt_le_dec idx (len pd)) as [Hlt|Hge].
    + exists pd, idx. rewrite getitem_cons_hit by lia.
      split; [left; reflexivity|]. split; [reflexivity|]. split; [lia|tauto].
    + rewrite getitem_cons_miss in H |- * by lia.
      destruct (IH (idx - len pd) H) as (q & j & Hin & Hget & Hj & Hpos).
      exists q, j. split; [right; exact Hin|]. split; [exact Hget|].
      split; [exact Hj|]. intros _. apply Hpos. lia.
Qed.

(** X5: the length does not depend on the order of the sources, adds
    up over concatenation, and is zero exactly when every source is
    empty. *)
Theorem X5_length_order_independent (l l' : list (PatchDataset P)) :
  (Permutation l l' -> __len__ l = __len__ l') /\
  __len__ (l ++ l') = __len__ l + __len__ l' /\
  (__len__ l = 0 <-> Forall (fun pd => pd_len pd = 0%nat) l).
Proof.
  split; [|split].
  - induction 1 as [|pd l1 l2 _ IH|pd1 pd2 l1|l1 l2 l3 _ IH1 _ IH2].
    + reflexivity.
    + rewrite !len_cons, IH. reflexivity.
    + rewrite !len_cons. lia.
    + congruence.
  - apply len_app.
  - induction l as [|pd l IH].
    + split; [constructor | reflexivity].
    + rewrite len_cons. pose proof (len_nonneg P l) as Hnn. unfold len. split.
      * intros Hz. constructor; [lia|]. apply IH. lia.
      * intros Hall. inversion Hall as [|? ? Hpd Hl]; subst.
        apply IH in Hl. lia.
Qed.

End AggregatorMore.

Arguments as_source {P} patch_datasets.
Arguments non_empty_sources {P} patch_datasets.

Lemma X1_negative_index_goes_to_first_source_witness :
  -1 < 0 /\
  __getitem__ [mk_source 0 0; mk_source 1 3] (-1) = Raise IndexOutOfRangeError.
Proof.
  assert (H : -1 < 0) by reflexivity.
  split; [exact H|].
  rewrite (X1_negative_index_goes_to_first_source _
             [mk_source 0 0; mk_source 1 3] (-1) H).
  reflexivity.
Defined.

Lemma X2_nested_aggregators_flatten_witness :
  0 <= 3 /\
  __getitem__ (map as_source [[mk_source 0 2]; [mk_source 1 0; mk_source 2 3]]) 3
  = Value (2, 1).
Proof.
  assert (H : 0 <= 3) by discriminate.
  split; [exact H|].
  rewrite (proj2 (X2_nested_aggregators_flatten _
             [[mk_source 0 2]; [mk_source 1 0; mk_source 2 3]]) 3 H).
  reflexivity.
Defined.

Lemma X3_empty_sources_are_transparent_witness :
  0 <= 4 /\
  __getitem__ (non_empty_sources three_sources) 4 = Value (2, 2).
Proof.
  assert (H : 0 <= 4) by discriminate.
  split; [exact H|].
  rewrite (proj2 (X3_empty_sources_are_transparent _ three_sources) 4 H).
  reflexivity.
Defined.

Lemma X4_outcome_comes_from_a_source_witness :
  __getitem__ three_sources 2 <> NoneResult /\
  exists pd j, In pd three_sources /\
    __getitem__ three_sources 2 = pd_getitem pd j /\ j < len pd.
Proof.
  assert (H : __getitem__ three_sources 2 <> NoneResult) by discriminate.
  split; [exact H|].
  destruct (X4_outcome_comes_from_a_source _ three_sources 2 H)
    as (pd & j & Hin & Hget & Hj & _).
  exists pd, j. repeat split; assumption.
Defined.

Lemma X5_length_order_independent_witness :
  Permutation three_sources (rev three_sources) /\
  __len__ three_sources = __len__ (rev three_sources).
Proof.
  assert (H : Permutation three_sources (rev three_sources))
    by apply Permutation_rev.
  split; [exact H|].
  exact (proj1 (X5_length_order_independent _ three_sources (rev three_sources)) H).
Defined.

End MultiCloud.

(** ** Point clouds and the grid patcher *)

Module Grid.

Local Open Scope Q_scope.

(** *** Floating-point rounding

    A binary floating-point format: [prec] bits of significand and
    exponents below [emax]. *)
Record Format : Type := { prec : Z; emax : Z }.

Definition binary32 : Format := {| prec := 24; emax := 128 |}.
Definition binary64 : Format := {| prec := 53; emax := 1024 |}.

(** The value of a float: a finite number, an infinity, or NaN. The
    sign of an infinity and of a zero decides nothing below and is not
    kept. *)
Inductive fval : Type :=
| Finite (q : Q)
| Infinite
| NaN.

(** For [x > 0], the exponent [e] with [2^e <= x < 2^(e+1)]. *)
Definition Qlog2 (x : Q) : Z :=
  let e0 := (Z.log2 (Qnum x) - Z.log2 (Z.pos (Qden x)))%Z in
  if Qle_bool (2 ^ e0) x then e0 else (e0 - 1)%Z.

(** Rounding to the nearest integer, ties to the even one. *)
Definition round_half_even (x : Q) : Z :=
  let f := Qfloor x in
  match Qcompare (x - inject_Z f) (1 # 2) with
  | Lt => f
  | Gt => (f + 1)%Z
  | Eq => if Z.even f then f else (f + 1)%Z
  end.

(** Rounding of [x > 0] to the nearest float of the format: the unit in
    the last place is [2^(e - prec + 1)], no smaller than the least
    subnormal [2^(3 - emax - prec)]; a result of [2^emax] or more is an
    infinity. *)
Definition round_magnitude (fmt : Format) (x : Q) : fval :=
  let emin := (3 - emax fmt - prec fmt)%Z in
  let e := Z.max (Qlog2 x - prec fmt + 1) emin in
  let m := round_half_even (x / 2 ^ e) in
  let r := Qred (inject_Z m * 2 ^ e) in
  if Qle_bool (2 ^ emax fmt) r then Infinite else Finite r.

Definition fneg (v : fval) : fval :=
  match v with
  | Finite q => Finite (- q)
  | other => other
  end.

(** IEEE 754 round-to-nearest-even of a real result. *)
Definition round (fmt : Format) (x : Q) : fval :=
  match Qcompare x 0 with
  | Eq => Finite 0
  | Gt => round_magnitude fmt x
  | Lt => fneg (round_magnitude fmt (- x))
  end.

Definition fround (fmt : Format) (v : fval) : fval :=
  match v with
  | Finite q => round fmt q
  | other => other
  end.

(** Subtraction of two entries of a tensor of format [fmt]. *)
Definition tsub (fmt : Format) (a b : Q) : fval := round fmt (a - b).

(** A Python number meeting a tensor: it is a Python float (binary64),
    converted to the format of the tensor. *)
Definition scalar (fmt : Format) (s : Q) : fval :=
  fround fmt (round binary64 s).

(** Division of floats of format [fmt]. *)
Definition tdiv (fmt : Format) (a b : fval) : fval :=
  match a, b with
  | NaN, _ | _, NaN => NaN
  | Infinite, Infinite => NaN
  | Infinite, Finite _ => Infinite
  | Finite _, Infinite => Finite 0
  | Finite u, Finite v =>
      if Qeq_bool v 0 then (if Qeq_bool u 0 then NaN else Infinite)
      else round fmt (u / v)
  end.

(** [math.ceil] of a float: an integer, [OverflowError] on an infinity,
    [ValueError] on NaN. *)
Definition math_ceil (v : fval) : result Z :=
  match v with
  | Finite q => Value (Qceiling q)
  | Infinite => Raise OverflowError
  | NaN => Raise ValueError
  end.

(** *** Clouds *)

(** One row of the N x 3 position tensor [pos]. *)
Record Point : Type := { px : Q; py : Q; pz : Q }.

(** The backing [Data] object: positions, with the float format of the
    position tensor ([pos.dtype]), and per-point features.
    The constructor asserts [data.pos is not None], so a dataset only
    ever holds a position tensor. *)
Record Data : Type := {
  pos : list Point;
  dtype : Format;
  x : list (list Q)
}.

(** Reduction of one column of [pos] with [op] ([min] or [max] along
    [dim=0]); torch refuses to reduce a tensor with no elements. *)
Definition reduce_column (op : Q -> Q -> Q) (f : Point -> Q) (l : list Point)
  : result Q :=
  match l with
  | [] => Raise RuntimeError
  | p :: rest => Value (fold_left (fun m q => op m (f q)) rest (f p))
  end.

Definition reduce_dim0 (op : Q -> Q -> Q) (l : list Point) : result Point :=
  vx <- reduce_column op px l ;;
  vy <- reduce_column op py l ;;
  vz <- reduce_column op pz l ;;
  Value {| px := vx; py := vy; pz := vz |}.

(** [get_bounding_box]: [pos.min(dim=0).values, pos.max(dim=0).values]. *)
Definition get_bounding_box (data : Data) : result (Point * Point) :=
  minPoint <- reduce_dim0 Qmin (pos data) ;;
  maxPoint <- reduce_dim0 Qmax (pos data) ;;
  Value (minPoint, maxPoint).

(** The state a constructed [Grid2DPatchDataset] holds. *)
Record Grid2DPatchDataset : Type := {
  data : Data;
  blockXDist : Q;
  blockYDist : Q;
  contextDist : Q;
  strideXDist : Q;
  strideYDist : Q;
  minPoint : Point;
  maxPoint : Point;
  numBlocksX : Z;
  numBlocksY : Z
}.

(** [math.ceil(cloudSize / stride)]: the tensor [cloudSize] divided by
    the Python number [stride], in the format of the tensor, then
    [math.ceil]. Dividing by zero gives an infinity, or NaN for 0/0. *)
Definition ceil_div (fmt : Format) (cloudSize : fval) (stride : Q) : result Z :=
  math_ceil (tdiv fmt cloudSize (scalar fmt stride)).

(** [Grid2DPatchDataset.__init__]. The strides are kept as the numbers
    [blockX - contextDist] and [blockY - contextDist]; the rounding of
    a stride to a float is applied where it divides a tensor. *)
Definition __init__ (data : Data) (blockX blockY contextDist : Q)
  : result Grid2DPatchDataset :=
  let strideXDist := blockX - contextDist in
  let strideYDist := blockY - contextDist in
  bb <- get_bounding_box data ;;
  let (minPoint, maxPoint) := bb in
  let cloudSizeX := tsub (dtype data) (px maxPoint) (px minPoint) in
  let cloudSizeY := tsub (dtype data) (py maxPoint) (py minPoint) in
  numBlocksX <- ceil_div (dtype data) cloudSizeX strideXDist ;;
  numBlocksY <- ceil_div (dtype data) cloudSizeY strideYDist ;;
  Value {| data := data;
           blockXDist := blockX;
           blockYDist := blockY;
           contextDist := contextDist;
           strideXDist := strideXDist;
           strideYDist := strideYDist;
           minPoint := minPoint;
           maxPoint := maxPoint;
           numBlocksX := numBlocksX;
           numBlocksY := numBlocksY |}.

(** [__len__]: [numBlocksX * numBlocksY]. *)
Definition __len__ (self : Grid2DPatchDataset) : Z :=
  (numBlocksX self * numBlocksY self)%Z.

(** A pair of 2D corners [(xyMin, xyMax)]. *)
Definition Bounds : Type := ((Q * Q) * (Q * Q))%type.

(** [_get_bounds_for_idx]; Python's [divmod] is floor division and its
    remainder, and raises on a zero divisor. *)
Definition _get_bounds_for_idx (self : Grid2DPatchDataset) (idx : Z)
  : result Bounds :=
  if (numBlocksX self =? 0)%Z then Raise ZeroDivisionError
  else
    let yIndex := (idx / numBlocksX self)%Z in
    let xIndex := (idx mod numBlocksX self)%Z in
    let blockMinY := py (minPoint self) + inject_Z yIndex * strideYDist self in
    let blockMinX := px (minPoint self) + inject_Z xIndex * strideXDist self in
    let blockMaxY := Qmin (blockMinY + blockYDist self) (py (maxPoint self)) in
    let blockMaxX := Qmin (blockMinX + blockXDist self) (px (maxPoint self)) in
    let xyMin := (blockMinX, blockMinY) in
    let xyMax := (blockMaxX, blockMaxY) in
    Value (xyMin, xyMax).

(** [_get_inner_bounds_for_idx]. *)
Definition _get_inner_bounds_for_idx (self : Grid2DPatchDataset) (idx : Z)
  : result Bounds :=
  b <- _get_bounds_for_idx self idx ;;
  let (xyMin, xyMax) := b in
  Value ((fst xyMin + contextDist self, snd xyMin + contextDist self),
         (fst xyMax - contextDist self, snd xyMax - contextDist self)).

(** [torch.arange(n)]. *)
Definition arange (n : nat) : list nat := seq 0 n.

(** Indexing a tensor with a boolean mask keeps, in order, the entries
    whose mask bit is set. *)
Definition mask_select (t : list nat) (mask : list bool) : list nat :=
  map fst (filter snd (combine t mask)).

(** The mask [c1 & c2 & c3 & c4] of [_get_box_index_arr], for one row. *)
Definition in_box (xyMin xyMax : Q * Q) (p : Point) : bool :=
  let c1 := Qle_bool (fst xyMin) (px p) in
  let c2 := Qle_bool (px p) (fst xyMax) in
  let c3 := Qle_bool (snd xyMin) (py p) in
  let c4 := Qle_bool (py p) (snd xyMax) in
  c1 && c2 && c3 && c4.

(** [_get_box_index_arr]. *)
Definition _get_box_index_arr (self : Grid2DPatchDataset) (xyMin xyMax : Q * Q)
  : list nat :=
  let mask := map (in_box xyMin xyMax) (pos (data self)) in
  mask_select (arange (length (pos (data self)))) mask.

(** [_get_block_index_arr]. *)
Definition _get_block_index_arr (self : Grid2DPatchDataset) (idx : Z)
  : result (list nat) :=
  b <- _get_bounds_for_idx self idx ;;
  Value (_get_box_index_arr self (fst b) (snd b)).

(** [_get_inner_block_index_arr]. *)
Definition _get_inner_block_index_arr (self : Grid2DPatchDataset) (idx : Z)
  : result (list nat) :=
  b <- _get_inner_bounds_for_idx self idx ;;
  Value (_get_box_index_arr self (fst b) (snd b)).

(** *** Sample clouds *)

Definition pt (a b c : Z) : Point :=
  {| px := inject_Z a; py := inject_Z b; pz := inject_Z c |}.

(** A cloud in torch's default format, and one in double precision. *)
Definition cloud_of (l : list Point) : Data :=
  {| pos := l; dtype := binary32; x := [] |}.

Definition cloud64_of (l : list Point) : Data :=
  {| pos := l; dtype := binary64; x := [] |}.

(** Five points spread over a 4 x 3 footprint. *)
Definition five_points : Data :=
  cloud_of [pt 0 0 0; pt 4 3 1; pt 2 1 5; pt 1 3 (-2); pt 3 2 0].

(** Two points on a vertical line: no extent along x. *)
Definition two_on_a_line : Data := cloud_of [pt 0 0 0; pt 0 1 0].

(** Two points at opposite corners of a unit square. *)
Definition two_corners : Data := cloud_of [pt 0 0 0; pt 1 1 0].

(** *** The membership query *)

(** One pass over the rows, numbering them from [s]: what the mask
    selection computes, written as a recursion on the rows. *)
Fixpoint select_from (s : nat) (f : Point -> bool) (l : list Point) : list nat :=
  match l with
  | [] => []
  | p :: rest =>
      if f p then s :: select_from (S s) f rest else select_from (S s) f rest
  end.

Lemma mask_select_seq (s : nat) (f : Point -> bool) (l : list Point) :
  mask_select (seq s (length l)) (map f l) = select_from s f l.
Proof.
  unfold mask_select. revert s.
  induction l as [|p l IH]; intros s; simpl.
  - reflexivity.
  - destruct (f p); simpl; rewrite IH; reflexivity.
Qed.

Lemma box_index_arr_select (self : Grid2DPatchDataset) (xyMin xyMax : Q * Q) :
  _get_box_index_arr self xyMin xyMax
  = select_from 0 (in_box xyMin xyMax) (pos (data self)).
Proof. unfold _get_box_index_arr, arange. apply mask_select_seq. Qed.

Lemma select_from_In (f : Point -> bool) (l : list Point) (s i : nat) :
  In i (select_from s f l) <->
  (s <= i)%nat /\ exists p, nth_error l (i - s) = Some p /\ f p = true.
Proof.
  revert s. induction l as [|p l IH]; intros s; simpl.
  - split; [tauto|]. intros (_ & q & Hq & _). destruct (i - s)%nat; discriminate.
  - assert (Hstep : In i (select_from (S s) f l) <->
              (s < i)%nat /\ exists q, nth_error (p :: l) (i - s) = Some q /\ f q = true).
    { rewrite IH. split.
      - intros (Hle & q & Hq & Hf). split; [lia|]. exists q. split; [|exact Hf].
        replace (i - s)%nat with (S (i - S s)) by lia. exact Hq.
      - intros (Hlt & q & Hq & Hf). split; [lia|]. exists q. split; [|exact Hf].
        replace (i - s)%nat with (S (i - S s)) in Hq by lia. exact Hq. }
    destruct (f p) eqn:Hfp.
    + simpl. rewrite Hstep. split.
      * intros [<- | (Hlt & q & Hq & Hf)].
        -- split; [lia|]. exists p. rewrite Nat.sub_diag. split; [reflexivity|exact Hfp].
        -- split; [lia|]. exists q. split; assumption.
      * intros (Hle & q & Hq & Hf).
        destruct (Nat.eq_dec s i) as [->|Hne]; [left; reflexivity|].
        right. split; [lia|]. exists q. split; assumption.
    + rewrite Hstep. split.
      * intros (Hlt & q & Hq & Hf). split; [lia|]. exists q. split; assumption.
      * intros (Hle & q & Hq & Hf).
        destruct (Nat.eq_dec s i) as [->|Hne].
        -- rewrite Nat.sub_diag in Hq. simpl in Hq. congruence.
        -- split; [lia|]. exists q. split; assumption.
Qed.

Lemma select_from_bounds (f : Point -> bool) (l : list Point) (s : nat) :
  Forall (fun i => (s <= i < s + length l)%nat) (select_from s f l).
Proof.
  apply Forall_forall. intros i Hi. apply select_from_In in Hi.
  destruct Hi as (Hle & p & Hp & _).
  assert (i - s < length l)%nat by (apply nth_error_Some; congruence).
  lia.
Qed.

Lemma select_from_sorted (f : Point -> bool) (l : list Point) (s : nat) :
  StronglySorted lt (select_from s f l).
Proof.
  revert s. induction l as [|p l IH]; intros s; simpl.
  - constructor.
  - destruct (f p); [|apply IH].
    constructor; [apply IH|].
    eapply Forall_impl; [|apply (select_from_bounds f l (S s))].
    simpl. intros i Hi. lia.
Qed.

(** Strictly increasing sequences of naturals are determined by their
    elements. *)
Lemma sorted_lt_head (a : nat) (l : list nat) :
  StronglySorted lt (a :: l) -> forall i, In i (a :: l) -> (a <= i)%nat.
Proof.
  intros H i [<-|Hi]; [lia|].
  inversion H as [|? ? _ Hall]; subst.
  rewrite Forall_forall in Hall. specialize (Hall i Hi). lia.
Qed.

Lemma sorted_lt_ext (l1 l2 : list nat) :
  StronglySorted lt l1 -> StronglySorted lt l2 ->
  (forall i, In i l1 <-> In i l2) -> l1 = l2.
Proof.
  revert l2. induction l1 as [|a l1 IH]; intros l2 H1 H2 Hext.
  - destruct l2 as [|b l2]; [reflexivity|].
    exfalso. apply (proj2 (Hext b)). left; reflexivity.
  - destruct l2 as [|b l2].
    + exfalso. apply (proj1 (Hext a)). left; reflexivity.
    + assert (Hab : a = b).
      { pose proof (sorted_lt_head a l1 H1 b (proj2 (Hext b) (or_introl eq_refl))).
        pose proof (sorted_lt_head b l2 H2 a (proj1 (Hext a) (or_introl eq_refl))).
        lia. }
      subst b. f_equal.
      inversion H1 as [|? ? S1 A1]; inversion H2 as [|? ? S2 A2]; subst.
      apply IH; try assumption.
      rewrite Forall_forall in A1, A2.
      intros i. split; intros Hi.
      * destruct (proj1 (Hext i) (or_intror Hi)) as [<-|Hi2]; [|exact Hi2].
        specialize (A1 a Hi). lia.
      * destruct (proj2 (Hext i) (or_intror Hi)) as [<-|Hi1]; [|exact Hi1].
        specialize (A2 a Hi). lia.
Qed.

Lemma sorted_lt_NoDup (l : list nat) : StronglySorted lt l -> NoDup l.
Proof.
  induction 1 as [|a l _ IH Hall]; constructor; [|exact IH].
  intros Hin. rewrite Forall_forall in Hall. specialize (Hall a Hin). lia.
Qed.

(** The mask of one row, as inequalities. *)
Lemma in_box_spec (xyMin xyMax : Q * Q) (p : Point) :
  in_box xyMin xyMax p = true <->
  (fst xyMin <= px p /\ px p <= fst xyMax) /\
  (snd xyMin <= py p /\ py p <= snd xyMax).
Proof.
  unfold in_box. rewrite !andb_true_iff, !Qle_bool_iff. tauto.
Qed.

Lemma box_index_arr_In (self : Grid2DPatchDataset) (xyMin xyMax : Q * Q) (i : nat) :
  In i (_get_box_index_arr self xyMin xyMax) <->
  exists p, nth_error (pos (data self)) i = Some p /\
    in_box xyMin xyMax p = true.
Proof.
  rewrite box_index_arr_select, select_from_In, Nat.sub_0_r.
  split; [intros (_ & H); exact H | intros H; split; [lia | exact H]].
Qed.

(** The footprint of a point: its x and y, without the elevation. *)
Definition footprint (p : Point) : Q * Q := (px p, py p).

Lemma select_from_footprint (f : Q * Q -> bool) (l l' : list Point) (s : nat) :
  map footprint l = map footprint l' ->
  select_from s (fun p => f (footprint p)) l
  = select_from s (fun p => f (footprint p)) l'.
Proof.
  revert l' s. induction l as [|p l IH]; intros [|p' l'] s H; try discriminate.
  - reflexivity.
  - cbn [map] in H. injection H as Hx Hy Hl. cbn [select_from].
    replace (footprint p) with (footprint p')
      by (unfold footprint; congruence).
    rewrite (IH l' (S s) Hl). reflexivity.
Qed.

Lemma nonzero_blocks_of_valid_idx (self : Grid2DPatchDataset) (idx : Z) :
  (0 <= idx < __len__ self)%Z -> (numBlocksX self =? 0)%Z = false.
Proof.
  unfold __len__. intros H. apply Z.eqb_neq. intros E. rewrite E in H. lia.
Qed.

Lemma empty_of_no_member (l : list nat) : (forall i, ~ In i l) -> l = [].
Proof.
  destruct l as [|a l]; [reflexivity|].
  intros H. exfalso. apply (H a). left; reflexivity.
Qed.

(** *** The bounding box *)

Lemma fold_min_le (f : Point -> Q) (l : list Point) (a : Q) :
  fold_left (fun m q => Qmin m (f q)) l a <= a /\
  forall p, In p l -> fold_left (fun m q => Qmin m (f q)) l a <= f p.
Proof.
  revert a. induction l as [|q l IH]; intros a; simpl.
  - split; [apply Qle_refl | tauto].
  - destruct (IH (Qmin a (f q))) as [Ha Hl]. split.
    + eapply Qle_trans; [exact Ha | apply Q.le_min_l].
    + intros p [<-|Hp]; [|apply Hl, Hp].
      eapply Qle_trans; [exact Ha | apply Q.le_min_r].
Qed.

Lemma fold_max_ge (f : Point -> Q) (l : list Point) (a : Q) :
  a <= fold_left (fun m q => Qmax m (f q)) l a /\
  forall p, In p l -> f p <= fold_left (fun m q => Qmax m (f q)) l a.
Proof.
  revert a. induction l as [|q l IH]; intros a; simpl.
  - split; [apply Qle_refl | tauto].
  - destruct (IH (Qmax a (f q))) as [Ha Hl]. split.
    + eapply Qle_trans; [apply Q.le_max_l | exact Ha].
    + intros p [<-|Hp]; [|apply Hl, Hp].
      eapply Qle_trans; [apply Q.le_max_r | exact Ha].
Qed.

Lemma reduce_min_le (f : Point -> Q) (l : list Point) (m : Q) :
  reduce_column Qmin f l = Value m -> forall p, In p l -> m <= f p.
Proof.
  destruct l as [|a l]; [discriminate|]. simpl. intros [= <-] p [<-|Hp].
  - exact (proj1 (fold_min_le f l (f a))).
  - exact (proj2 (fold_min_le f l (f a)) p Hp).
Qed.

Lemma reduce_max_ge (f : Point -> Q) (l : list Point) (m : Q) :
  reduce_column Qmax f l = Value m -> forall p, In p l -> f p <= m.
Proof.
  destruct l as [|a l]; [discriminate|]. simpl. intros [= <-] p [<-|Hp].
  - exact (proj1 (fold_max_ge f l (f a))).
  - exact (proj2 (fold_max_ge f l (f a)) p Hp).
Qed.

Lemma reduce_column_nonempty (op : Q -> Q -> Q) (f : Point -> Q) (l : list Point) :
  l <> [] -> exists m, reduce_column op f l = Value m.
Proof.
  destruct l as [|a l]; [congruence|]. intros _. eexists; reflexivity.
Qed.

Lemma reduce_column_Value (op : Q -> Q -> Q) (f : Point -> Q) (l : list Point) (m : Q) :
  reduce_column op f l = Value m -> l <> [].
Proof. destruct l; [discriminate | congruence]. Qed.

(** Every point of the cloud lies in the footprint of the box. *)
Lemma bounding_box_contains (d : Data) (mn mx : Point) :
  get_bounding_box d = Value (mn, mx) ->
  pos d <> [] /\
  forall p, In p (pos d) ->
    (px mn <= px p /\ px p <= px mx) /\ (py mn <= py p /\ py p <= py mx).
Proof.
  unfold get_bounding_box, reduce_dim0.
  destruct (reduce_column Qmin px (pos d)) as [ax| |] eqn:Eax; try discriminate.
  destruct (reduce_column Qmin py (pos d)) as [ay| |] eqn:Eay; try discriminate.
  destruct (reduce_column Qmin pz (pos d)) as [az| |] eqn:Eaz; try discriminate.
  destruct (reduce_column Qmax px (pos d)) as [bx| |] eqn:Ebx; try discriminate.
  destruct (reduce_column Qmax py (pos d)) as [by'| |] eqn:Eby; try discriminate.
  destruct (reduce_column Qmax pz (pos d)) as [bz| |] eqn:Ebz; try discriminate.
  cbn [bind]. intros [= <- <-]. cbn [px py].
  split; [eapply reduce_column_Value; exact Eax|].
  intros p Hp. repeat split.
  - eapply reduce_min_le; [exact Eax | exact Hp].
  - eapply reduce_max_ge; [exact Ebx | exact Hp].
  - eapply reduce_min_le; [exact Eay | exact Hp].
  - eapply reduce_max_ge; [exact Eby | exact Hp].
Qed.

Lemma bounding_box_nonempty (d : Data) :
  pos d <> [] -> exists mn mx, get_bounding_box d = Value (mn, mx).
Proof.
  intros H. unfold get_bounding_box, reduce_dim0.
  destruct (reduce_column_nonempty Qmin px _ H) as [ax ->].
  destruct (reduce_column_nonempty Qmin py _ H) as [ay ->].
  destruct (reduce_column_nonempty Qmin pz _ H) as [az ->].
  destruct (reduce_column_nonempty Qmax px _ H) as [bx ->].
  destruct (reduce_column_nonempty Qmax py _ H) as [by' ->].
  destruct (reduce_column_nonempty Qmax pz _ H) as [bz ->].
  cbn [bind]. eexists _, _. reflexivity.
Qed.

Lemma bounding_box_ordered (d : Data) (mn mx : Point) :
  get_bounding_box d = Value (mn, mx) ->
  px mn <= px mx /\ py mn <= py mx.
Proof.
  intros H. destruct (bounding_box_contains d mn mx H) as [Hne Hall].
  destruct (pos d) as [|p l]; [congruence|].
  destruct (Hall p (or_introl eq_refl)) as [[? ?] [? ?]].
  split; eapply Qle_trans; eassumption.
Qed.

(** *** Rounding keeps zero and the sign *)

Lemma round_half_even_nonneg (y : Q) : 0 <= y -> (0 <= round_half_even y)%Z.
Proof.
  intros H. unfold round_half_even.
  assert (Hf : (0 <= Qfloor y)%Z).
  { change 0%Z with (Qfloor 0). apply Qfloor_resp_le, H. }
  destruct (Qcompare (y - inject_Z (Qfloor y)) (1 # 2));
    [destruct (Z.even (Qfloor y))| |]; lia.
Qed.

Lemma round_magnitude_nonneg (fmt : Format) (u q : Q) :
  0 <= u -> round_magnitude fmt u = Finite q -> 0 <= q.
Proof.
  intros H. unfold round_magnitude.
  set (e := Z.max (Qlog2 u - prec fmt + 1) (3 - emax fmt - prec fmt)).
  destruct (Qle_bool (2 ^ emax fmt)
              (Qred (inject_Z (round_half_even (u / 2 ^ e)) * 2 ^ e)));
    [discriminate|].
  intros [= <-].
  assert (Hp : 0 < 2 ^ e) by (apply Qpower_0_lt; reflexivity).
  set (t := inject_Z (round_half_even (u / 2 ^ e)) * 2 ^ e).
  apply (Qle_trans 0 t (Qred t));
    [|apply Qle_lteq; right; apply Qeq_sym; exact (Qred_correct t)].
  unfold t. apply Qmult_le_0_compat; [|apply Qlt_le_weak, Hp].
  change 0 with (inject_Z 0). rewrite <- Zle_Qle.
  apply round_half_even_nonneg.
  apply Qle_shift_div_l; [exact Hp|]. rewrite Qmult_0_l. exact H.
Qed.

Lemma round_magnitude_not_NaN (fmt : Format) (u : Q) :
  round_magnitude fmt u <> NaN.
Proof.
  unfold round_magnitude.
  destruct (Qle_bool _ _); discriminate.
Qed.

Lemma round_not_NaN (fmt : Format) (u : Q) : round fmt u <> NaN.
Proof.
  unfold round. destruct (Qcompare u 0); [discriminate| |].
  - pose proof (round_magnitude_not_NaN fmt (- u)).
    destruct (round_magnitude fmt (- u)); cbn [fneg]; congruence.
  - apply round_magnitude_not_NaN.
Qed.

Lemma round_zero (fmt : Format) (u : Q) : u == 0 -> round fmt u = Finite 0.
Proof.
  intros H. unfold round. apply Qeq_alt in H. rewrite H. reflexivity.
Qed.

(** A rounded value is never on the other side of zero. *)
Lemma round_sign (fmt : Format) (u q : Q) :
  round fmt u = Finite q -> (0 <= u -> 0 <= q) /\ (u <= 0 -> q <= 0).
Proof.
  unfold round. destruct (Qcompare u 0) eqn:E.
  - intros [= <-]. split; intros _; apply Qle_refl.
  - apply Qlt_alt in E.
    destruct (round_magnitude fmt (- u)) as [r| |] eqn:Er; cbn [fneg];
      try discriminate.
    intros [= <-].
    assert (0 <= r) by (apply (round_magnitude_nonneg fmt (- u)); [lra | exact Er]).
    split; intros; lra.
  - apply Qgt_alt in E. intros Er.
    assert (0 <= q) by (apply (round_magnitude_nonneg fmt u); [lra | exact Er]).
    split; intros; lra.
Qed.

Lemma scalar_not_NaN (fmt : Format) (s : Q) : scalar fmt s <> NaN.
Proof.
  unfold scalar. pose proof (round_not_NaN binary64 s).
  destruct (round binary64 s) as [r| |]; cbn [fround];
    [apply round_not_NaN | discriminate | congruence].
Qed.

Lemma scalar_sign (fmt : Format) (s q : Q) :
  scalar fmt s = Finite q -> (0 <= s -> 0 <= q) /\ (s <= 0 -> q <= 0).
Proof.
  unfold scalar. destruct (round binary64 s) as [r| |] eqn:Er; cbn [fround];
    try discriminate.
  intros Hq. destruct (round_sign binary64 s r Er) as [H1 H2].
  destruct (round_sign fmt r q Hq) as [H3 H4].
  split; intros; auto.
Qed.

(** *** The constructor *)

(** The float quotient behind a block count. *)
Lemma ceil_div_Value (fmt : Format) (cloudSize : fval) (stride : Q) (n : Z) :
  ceil_div fmt cloudSize stride = Value n <->
  exists q, tdiv fmt cloudSize (scalar fmt stride) = Finite q /\ n = Qceiling q.
Proof.
  unfold ceil_div.
  destruct (tdiv fmt cloudSize (scalar fmt stride)) as [q| |]; cbn [math_ceil].
  - split.
    + intros [= <-]. exists q. split; reflexivity.
    + intros (q' & [= <-] & ->). reflexivity.
  - split; [discriminate | intros (q' & E & _); discriminate].
  - split; [discriminate | intros (q' & E & _); discriminate].
Qed.

(** A block count, or the error of [math.ceil] on a quotient that is
    not finite; nothing else. *)
Lemma ceil_div_outcomes (fmt : Format) (cloudSize : fval) (stride : Q) :
  (exists n, ceil_div fmt cloudSize stride = Value n) \/
  ceil_div fmt cloudSize stride = Raise OverflowError \/
  ceil_div fmt cloudSize stride = Raise ValueError.
Proof.
  unfold ceil_div.
  destruct (tdiv fmt cloudSize (scalar fmt stride)) as [q| |]; cbn [math_ceil].
  - left. eexists; reflexivity.
  - right; left; reflexivity.
  - right; right; reflexivity.
Qed.

(** No extent, no block. *)
Lemma ceil_div_zero_extent (fmt : Format) (a b stride : Q) (n : Z) :
  a == b -> ceil_div fmt (tsub fmt a b) stride = Value n -> n = 0%Z.
Proof.
  intros Hab Hn. apply ceil_div_Value in Hn. destruct Hn as (q & Hq & ->).
  unfold tsub in Hq. rewrite (round_zero fmt (a - b)) in Hq by lra.
  pose proof (scalar_not_NaN fmt stride) as Hs.
  destruct (scalar fmt stride) as [v| |]; cbn [tdiv] in Hq; [| |congruence].
  - destruct (Qeq_bool v 0) eqn:Ev; [discriminate|].
    apply Qeq_bool_neq in Ev.
    assert (E0 : 0 / v == 0) by (unfold Qdiv; apply Qmult_0_l).
    rewrite (round_zero fmt (0 / v) E0) in Hq. injection Hq as <-. reflexivity.
  - injection Hq as <-. reflexivity.
Qed.

(** Against a negative stride, an extent that is not negative gives a
    block count that is not positive. *)
Lemma ceil_div_negative_stride (fmt : Format) (a b stride : Q) (n : Z) :
  b <= a -> stride < 0 ->
  ceil_div fmt (tsub fmt a b) stride = Value n -> (n <= 0)%Z.
Proof.
  intros Hab Hs Hn. apply ceil_div_Value in Hn. destruct Hn as (q & Hq & ->).
  assert (Hq0 : q <= 0); [|change 0%Z with (Qceiling 0); apply Qceiling_resp_le, Hq0].
  unfold tsub in Hq.
  destruct (round fmt (a - b)) as [u| |] eqn:Eu.
  - destruct (round_sign fmt (a - b) u Eu) as [Hu _].
    assert (0 <= u) by (apply Hu; lra).
    destruct (scalar fmt stride) as [v| |] eqn:Ev; cbn [tdiv] in Hq.
    + destruct (scalar_sign fmt stride v Ev) as [_ Hv].
      assert (v <= 0) by (apply Hv; lra).
      destruct (Qeq_bool v 0) eqn:Ez;
        [destruct (Qeq_bool u 0); discriminate|].
      apply Qeq_bool_neq in Ez.
      destruct (round_sign fmt (u / v) q Hq) as [_ Hneg]. apply Hneg.
      assert (Hv' : 0 < - v) by lra.
      assert (E : u / v == - (u / - v)) by (field; lra).
      rewrite E.
      assert (0 <= u / - v) by (apply Qle_shift_div_l; [exact Hv'|lra]).
      lra.
    + injection Hq as <-. apply Qle_refl.
    + discriminate.
  - destruct (scalar fmt stride) as [v| |]; cbn [tdiv] in Hq; discriminate.
  - destruct (scalar fmt stride) as [v| |]; cbn [tdiv] in Hq; discriminate.
Qed.

(** The grid that [__init__] builds from a bounding box and two block
    counts. *)
Definition grid_of (d : Data) (blockX blockY contextDist : Q) (mn mx : Point)
  (nx ny : Z) : Grid2DPatchDataset :=
  {| data := d;
     blockXDist := blockX;
     blockYDist := blockY;
     contextDist := contextDist;
     strideXDist := blockX - contextDist;
     strideYDist := blockY - contextDist;
     minPoint := mn;
     maxPoint := mx;
     numBlocksX := nx;
     numBlocksY := ny |}.

Lemma init_Value (d : Data) (blockX blockY c : Q) (g : Grid2DPatchDataset) :
  __init__ d blockX blockY c = Value g ->
  exists mn mx nx ny,
    get_bounding_box d = Value (mn, mx) /\
    ceil_div (dtype d) (tsub (dtype d) (px mx) (px mn)) (blockX - c) = Value nx /\
    ceil_div (dtype d) (tsub (dtype d) (py mx) (py mn)) (blockY - c) = Value ny /\
    g = grid_of d blockX blockY c mn mx nx ny.
Proof.
  unfold __init__.
  destruct (get_bounding_box d) as [[mn mx]| |] eqn:Ebb; try discriminate.
  cbn [bind].
  destruct (ceil_div (dtype d) (tsub (dtype d) (px mx) (px mn)) (blockX - c))
    as [nx| |] eqn:Ex; try discriminate.
  destruct (ceil_div (dtype d) (tsub (dtype d) (py mx) (py mn)) (blockY - c))
    as [ny| |] eqn:Ey; try discriminate.
  cbn [bind]. intros [= <-].
  exists mn, mx, nx, ny. repeat split; assumption.
Qed.

(** Over a non-empty cloud construction ends in a grid or in the error
    of [math.ceil]. *)
Lemma init_outcomes (d : Data) (blockX blockY c : Q) :
  pos d <> [] ->
  (exists g, __init__ d blockX blockY c = Value g) \/
  __init__ d blockX blockY c = Raise OverflowError \/
  __init__ d blockX blockY c = Raise ValueError.
Proof.
  intros Hne. destruct (bounding_box_nonempty d Hne) as (mn & mx & Ebb).
  unfold __init__. rewrite Ebb. cbn [bind].
  destruct (ceil_div_outcomes (dtype d) (tsub (dtype d) (px mx) (px mn))
              (blockX - c)) as [[nx ->]|[->| ->]]; cbn [bind]; auto.
  destruct (ceil_div_outcomes (dtype d) (tsub (dtype d) (py mx) (py mn))
              (blockY - c)) as [[ny ->]|[->| ->]]; cbn [bind]; auto.
  left. eexists; reflexivity.
Qed.

Lemma init_not_invalid_configuration (d : Data) (blockX blockY c : Q) :
  __init__ d blockX blockY c <> Raise InvalidConfigurationError.
Proof.
  destruct (pos d) as [|p l] eqn:Epos.
  - unfold __init__, get_bounding_box, reduce_dim0. rewrite Epos. cbn.
    discriminate.
  - assert (Hne : pos d <> []) by congruence.
    destruct (init_outcomes d blockX blockY c Hne) as [[g ->]|[->| ->]];
      discriminate.
Qed.

(** *** Claims on the membership query and the block bounds *)

(** C5: the membership query returns exactly the indices [i] of the
    points with [min.x <= pos[i].x <= max.x] and
    [min.y <= pos[i].y <= max.y], all four comparisons inclusive; the
    elevation plays no part: two clouds with the same footprints, row
    by row, select the same indices whatever their z coordinates. *)
Theorem C5_membership_exact
  (self : Grid2DPatchDataset) (xyMin xyMax : Q * Q) :
  (forall i : nat,
     In i (_get_box_index_arr self xyMin xyMax) <->
     exists p, nth_error (pos (data self)) i = Some p /\
       fst xyMin <= px p <= fst xyMax /\
       snd xyMin <= py p <= snd xyMax) /\
  (forall other : Grid2DPatchDataset,
     map footprint (pos (data other)) = map footprint (pos (data self)) ->
     _get_box_index_arr other xyMin xyMax
     = _get_box_index_arr self xyMin xyMax).
Proof.
  split.
  - intros i. rewrite box_index_arr_In.
    split; intros (p & Hp & Hb); exists p; (split; [exact Hp|]);
      apply in_box_spec in Hb || apply in_box_spec; exact Hb.
  - intros other H. rewrite !box_index_arr_select.
    apply (select_from_footprint
             (fun q => Qle_bool (fst xyMin) (fst q) && Qle_bool (fst q) (fst xyMax)
                       && Qle_bool (snd xyMin) (snd q) && Qle_bool (snd q) (snd xyMax))
             _ _ 0 H).
Qed.

(** C10: the sequence of indices returned by the membership query is
    strictly increasing, has no duplicates, and holds only indices of
    rows of the cloud; so two queries over one cloud select the same
    points exactly when they return equal sequences. *)
Theorem C10_membership_sorted
  (self : Grid2DPatchDataset) (xyMin xyMax : Q * Q) :
  StronglySorted lt (_get_box_index_arr self xyMin xyMax) /\
  NoDup (_get_box_index_arr self xyMin xyMax) /\
  Forall (fun i => (i < length (pos (data self)))%nat)
         (_get_box_index_arr self xyMin xyMax) /\
  (forall xyMin' xyMax' : Q * Q,
     (forall i, In i (_get_box_index_arr self xyMin xyMax) <->
                In i (_get_box_index_arr self xyMin' xyMax')) <->
     _get_box_index_arr self xyMin xyMax
     = _get_box_index_arr self xyMin' xyMax').
Proof.
  assert (Hs : forall a b, StronglySorted lt (_get_box_index_arr self a b)).
  { intros a b. rewrite box_index_arr_select. apply select_from_sorted. }
  split; [apply Hs|]. split; [apply sorted_lt_NoDup, Hs|]. split.
  - rewrite box_index_arr_select.
    eapply Forall_impl; [|apply select_from_bounds].
    simpl. intros i Hi. lia.
  - intros a b. split.
    + apply sorted_lt_ext; apply Hs.
    + intros E i. rewrite E. tauto.
Qed.


(** C9: with a non-negative context margin, for every block index in
    range both queries answer, the inner point set is contained in the
    outer one, and when the shrunk bounds have their minimum above
    their maximum on an axis the inner set is empty. *)
Theorem C9_inner_subset_outer (self : Grid2DPatchDataset) (idx : Z) :
  0 <= contextDist self ->
  (0 <= idx < __len__ self)%Z ->
  exists (outer inner : list nat) (innerBounds : Bounds),
    _get_block_index_arr self idx = Value outer /\
    _get_inner_bounds_for_idx self idx = Value innerBounds /\
    _get_inner_block_index_arr self idx = Value inner /\
    incl inner outer /\
    (fst (snd innerBounds) < fst (fst innerBounds) \/
     snd (snd innerBounds) < snd (fst innerBounds) -> inner = []).
Proof.
  intros Hc Hidx.
  pose proof (nonzero_blocks_of_valid_idx self idx Hidx) as Hnz.
  unfold _get_block_index_arr, _get_inner_block_index_arr,
    _get_inner_bounds_for_idx.
  destruct (_get_bounds_for_idx self idx) as [[lo hi]| |e] eqn:Hb;
    try (unfold _get_bounds_for_idx in Hb; rewrite Hnz in Hb; discriminate).
  cbn [bind fst snd].
  eexists _, _, _. split; [reflexivity|]. split; [reflexivity|].
  split; [reflexivity|]. split.
  - intros i Hi. apply box_index_arr_In in Hi. apply box_index_arr_In.
    destruct Hi as (p & Hp & Hin). exists p. split; [exact Hp|].
    apply in_box_spec in Hin. apply in_box_spec. cbn [fst snd] in Hin |- *.
    lra.
  - intros Hempty. apply empty_of_no_member. intros i Hi.
    apply box_index_arr_In in Hi. destruct Hi as (p & _ & Hin).
    apply in_box_spec in Hin. cbn [fst snd] in Hin, Hempty. lra.
Qed.




(** *** Sample grids *)

(** [five_points] cut in 2 x 2 blocks with a margin of 1: 4 columns and
    3 rows. *)
Definition grid_five : Grid2DPatchDataset :=
  grid_of five_points 2 2 1 (pt 0 0 (-2)) (pt 4 3 5) 4 3.

(** The same footprints on the ground plane. *)
Definition five_points_flat : Data :=
  cloud_of [pt 0 0 0; pt 4 3 0; pt 2 1 0; pt 1 3 0; pt 3 2 0].

Definition grid_five_flat : Grid2DPatchDataset :=
  grid_of five_points_flat 2 2 1 (pt 0 0 0) (pt 4 3 0) 4 3.

(** [two_on_a_line] with the same configuration: no column at all. *)
Definition grid_line : Grid2DPatchDataset :=
  grid_of two_on_a_line 2 2 1 (pt 0 0 0) (pt 0 1 0) 0 1.

(** [two_corners] with a margin of 2 above the block size of 1. *)
Definition grid_corners : Grid2DPatchDataset :=
  grid_of two_corners 1 1 2 (pt 0 0 0) (pt 1 1 0) (-1) (-1).

Example init_five : __init__ five_points 2 2 1 = Value grid_five.
Proof. vm_compute. reflexivity. Qed.

Example init_line : __init__ two_on_a_line 2 2 1 = Value grid_line.
Proof. vm_compute. reflexivity. Qed.

Example init_corners : __init__ two_corners 1 1 2 = Value grid_corners.
Proof. vm_compute. reflexivity. Qed.

Example init_zero_stride : __init__ two_corners 1 1 1 = Raise OverflowError.
Proof. vm_compute. reflexivity. Qed.

Example grid_five_blocks :
  (numBlocksX grid_five, numBlocksY grid_five, __len__ grid_five)
  = (4, 3, 12)%Z.
Proof. vm_compute. reflexivity. Qed.

Example grid_five_block6 :
  _get_block_index_arr grid_five 6 = Value [1; 2; 4]%nat /\
  _get_inner_block_index_arr grid_five 6 = Value [4]%nat.
Proof. split; vm_compute; reflexivity. Qed.

(** *** The rounding at work *)

(** The double nearest to a decimal. *)
Definition dbl (u : Q) : Q :=
  match round binary64 u with
  | Finite q => q
  | _ => 0
  end.

Definition pt2 (a b : Q) : Point := {| px := a; py := b; pz := 0 |}.

Example dbl_tenth : dbl (1 # 10) = 3602879701896397 # 36028797018963968.
Proof. vm_compute. reflexivity. Qed.

Example single_tenth :
  round binary32 (1 # 10) = Finite (13421773 # 134217728).
Proof. vm_compute. reflexivity. Qed.

(** In double precision 0.9 / 0.3 is 3.0, although the quotient of the
    two doubles is above 3: an extent of 0.9 cut with stride 0.3 has 3
    columns. *)
Example columns_of_09_by_03 :
  3 < dbl (9 # 10) / dbl (3 # 10) /\
  exists g,
    __init__ (cloud64_of [pt2 0 0; pt2 (dbl (9 # 10)) (dbl (9 # 10))])
             (dbl (3 # 10)) (dbl (3 # 10)) 0 = Value g /\
    numBlocksX g = 3%Z /\ numBlocksY g = 3%Z.
Proof.
  split; [vm_compute; reflexivity|].
  eexists. split; [vm_compute; reflexivity|]. split; reflexivity.
Qed.

(** In double precision 0.2 - (-0.1) is 0.30000000000000004 and its
    quotient by 0.1 is 3.0000000000000004: 4 columns. *)
Example columns_of_03_by_01 :
  exists g,
    __init__ (cloud64_of [pt2 (- dbl (1 # 10)) 0; pt2 (dbl (2 # 10)) 1])
             (dbl (1 # 10)) 1 0 = Value g /\
    numBlocksX g = 4%Z.
Proof.
  eexists. split; [vm_compute; reflexivity | reflexivity].
Qed.

(** A quotient beyond the range of the format is an infinity, on which
    [math.ceil] raises. *)
Example init_quotient_overflow :
  __init__ (cloud64_of [pt2 0 0; pt2 (dbl (10 ^ 308)) 1])
           0 0 (dbl (1 / 10 ^ 10))
  = Raise OverflowError.
Proof. vm_compute. reflexivity. Qed.

(** *** Further behaviour of the bounding box and the constructor *)

Lemma Qmin_cases (a b : Q) : Qmin a b = a \/ Qmin a b = b.
Proof.
  unfold Qmin, GenericMinMax.gmin. destruct (a ?= b); auto.
Qed.

Lemma Qmax_cases (a b : Q) : Qmax a b = a \/ Qmax a b = b.
Proof.
  unfold Qmax, GenericMinMax.gmax. destruct (a ?= b); auto.
Qed.

(** A fold with an operation that picks one of its arguments ends on
    the start value or on the image of an element. *)
Lemma fold_pick_attained (op : Q -> Q -> Q) (f : Point -> Q)
  (l : list Point) (a : Q) :
  (forall u v, op u v = u \/ op u v = v) ->
  fold_left (fun m q => op m (f q)) l a = a \/
  exists p, In p l /\ fold_left (fun m q => op m (f q)) l a = f p.
Proof.
  intros Hop. revert a. induction l as [|q l IH]; intros a; simpl.
  - left; reflexivity.
  - destruct (IH (op a (f q))) as [E|(p & Hp & E)].
    + destruct (Hop a (f q)) as [Ea|Eq].
      * left. rewrite E. exact Ea.
      * right. exists q. split; [left; reflexivity|]. rewrite E. exact Eq.
    + right. exists p. split; [right; exact Hp | exact E].
Qed.

Lemma reduce_column_attained (op : Q -> Q -> Q) (f : Point -> Q)
  (l : list Point) (m : Q) :
  (forall u v, op u v = u \/ op u v = v) ->
  reduce_column op f l = Value m -> exists p, In p l /\ f p = m.
Proof.
  intros Hop. destruct l as [|a l]; [discriminate|]. simpl. intros [= <-].
  destruct (fold_pick_attained op f l (f a) Hop) as [E|(p & Hp & E)].
  - exists a. split; [left; reflexivity | symmetry; exact E].
  - exists p. split; [right; exact Hp | symmetry; exact E].
Qed.

(** The six reductions behind a bounding box. *)
Lemma bounding_box_columns (d : Data) (mn mx : Point) :
  get_bounding_box d = Value (mn, mx) ->
  (reduce_column Qmin px (pos d) = Value (px mn) /\
   reduce_column Qmin py (pos d) = Value (py mn) /\
   reduce_column Qmin pz (pos d) = Value (pz mn)) /\
  (reduce_column Qmax px (pos d) = Value (px mx) /\
   reduce_column Qmax py (pos d) = Value (py mx) /\
   reduce_column Qmax pz (pos d) = Value (pz mx)).
Proof.
  unfold get_bounding_box, reduce_dim0.
  destruct (reduce_column Qmin px (pos d)) as [ax| |]; try discriminate.
  destruct (reduce_column Qmin py (pos d)) as [ay| |]; try discriminate.
  destruct (reduce_column Qmin pz (pos d)) as [az| |]; try discriminate.
  destruct (reduce_column Qmax px (pos d)) as [bx| |]; try discriminate.
  destruct (reduce_column Qmax py (pos d)) as [by'| |]; try discriminate.
  destruct (reduce_column Qmax pz (pos d)) as [bz| |]; try discriminate.
  cbn [bind]. intros [= <- <-]. cbn [px py pz]. repeat split.
Qed.

(** X6: the bounding box of a non-empty cloud is tight in all three
    coordinates: every point lies between [minPoint] and [maxPoint]
    componentwise, and each of the six bounds is the coordinate of some
    point of the cloud. *)
Theorem X6_bounding_box_tight (d : Data) (mn mx : Point) :
  get_bounding_box d = Value (mn, mx) ->
  (forall p, In p (pos d) ->
     px mn <= px p <= px mx /\ py mn <= py p <= py mx /\
     pz mn <= pz p <= pz mx) /\
  (exists p, In p (pos d) /\ px p = px mn) /\
  (exists p, In p (pos d) /\ py p = py mn) /\
  (exists p, In p (pos d) /\ pz p = pz mn) /\
  (exists p, In p (pos d) /\ px p = px mx) /\
  (exists p, In p (pos d) /\ py p = py mx) /\
  (exists p, In p (pos d) /\ pz p = pz mx).
Proof.
  intros H.
  destruct (bounding_box_columns d mn mx H)
    as [(Hx0 & Hy0 & Hz0) (Hx1 & Hy1 & Hz1)].
  split.
  - intros p Hp. repeat split;
      (eapply reduce_min_le; eassumption) || (eapply reduce_max_ge; eassumption).
  - repeat split;
      (eapply (reduce_column_attained Qmin); [exact Qmin_cases | eassumption])
      || (eapply (reduce_column_attained Qmax); [exact Qmax_cases | eassumption]).
Qed.

Lemma X6_bounding_box_tight_witness :
  get_bounding_box five_points = Value (pt 0 0 (-2), pt 4 3 5) /\
  exists p, In p (pos five_points) /\ pz p = pz (pt 0 0 (-2)).
Proof.
  assert (H : get_bounding_box five_points = Value (pt 0 0 (-2), pt 4 3 5))
    by (vm_compute; reflexivity).
  split; [exact H|].
  destruct (X6_bounding_box_tight five_points _ _ H) as (_ & _ & _ & Hz & _).
  exact Hz.
Defined.

(** *** Witnesses on the sample grid *)


Lemma C5_membership_exact_witness :
  map footprint (pos (data grid_five_flat)) = map footprint (pos (data grid_five)) /\
  _get_box_index_arr grid_five_flat (1, 0) (3, 2)
  = _get_box_index_arr grid_five (1, 0) (3, 2).
Proof.
  assert (H : map footprint (pos (data grid_five_flat))
              = map footprint (pos (data grid_five))) by reflexivity.
  split; [exact H|].
  exact (proj2 (C5_membership_exact grid_five (1, 0) (3, 2)) grid_five_flat H).
Defined.

Lemma C9_inner_subset_outer_witness :
  0 <= contextDist grid_five /\
  (0 <= 6 < __len__ grid_five)%Z /\
  exists outer inner : list nat,
    _get_block_index_arr grid_five 6 = Value outer /\
    _get_inner_block_index_arr grid_five 6 = Value inner /\
    incl inner outer.
Proof.
  assert (Hc : 0 <= contextDist grid_five) by (vm_compute; discriminate).
  assert (Hi : (0 <= 6 < __len__ grid_five)%Z) by (vm_compute; split; congruence).
  split; [exact Hc|]. split; [exact Hi|].
  destruct (C9_inner_subset_outer grid_five 6 Hc Hi)
    as (outer & inner & ib & Ho & _ & Hin & Hsub & _).
  exists outer, inner. repeat split; assumption.
Defined.

(** *** Claims on the lattice *)

(** C3 (as stated, refuted): a cloud of two points on a vertical line,
    cut in 2 x 2 blocks with margin 1, is constructed with zero blocks
    along x, not one, and with length 0 although the cloud is not
    empty. *)
Lemma C3_zero_extent_zero_blocks :
  exists g, __init__ two_on_a_line 2 2 1 = Value g /\
    px (maxPoint g) - px (minPoint g) == 0 /\
    numBlocksX g = 0%Z /\ numBlocksX g <> 1%Z /\
    pos (data g) <> [] /\ ~ (1 <= __len__ g)%Z.
Proof.
  exists grid_line. split; [exact init_line|].
  split; [reflexivity|]. split; [reflexivity|].
  split; [discriminate|]. split; [discriminate|].
  vm_compute. intros H. apply H. reflexivity.
Qed.

(** C3 (amended): on every constructed grid, [numBlocksX] and
    [numBlocksY] are, per axis, [math.ceil] of the floating-point
    quotient of the cloud size by the stride, each computed and rounded
    in the format of the position tensor over the bounding box of the
    cloud, with no clamp to a minimum of 1: a cloud with zero extent
    along an axis has zero blocks along that axis and length 0. *)
Theorem C3_block_counts
  (d : Data) (blockX blockY c : Q) (g : Grid2DPatchDataset) :
  __init__ d blockX blockY c = Value g ->
  let cloudSizeX := tsub (dtype d) (px (maxPoint g)) (px (minPoint g)) in
  let cloudSizeY := tsub (dtype d) (py (maxPoint g)) (py (minPoint g)) in
  get_bounding_box d = Value (minPoint g, maxPoint g) /\
  (exists quotientX : Q,
     tdiv (dtype d) cloudSizeX (scalar (dtype d) (blockX - c)) = Finite quotientX /\
     numBlocksX g = Qceiling quotientX) /\
  (exists quotientY : Q,
     tdiv (dtype d) cloudSizeY (scalar (dtype d) (blockY - c)) = Finite quotientY /\
     numBlocksY g = Qceiling quotientY) /\
  (px (maxPoint g) == px (minPoint g) ->
   numBlocksX g = 0%Z /\ __len__ g = 0%Z) /\
  (py (maxPoint g) == py (minPoint g) ->
   numBlocksY g = 0%Z /\ __len__ g = 0%Z).
Proof.
  intros H. destruct (init_Value d blockX blockY c g H)
    as (mn & mx & nx & ny & Hbb & Hx & Hy & ->).
  cbn [grid_of maxPoint minPoint numBlocksX numBlocksY]. unfold __len__.
  cbn [grid_of numBlocksX numBlocksY].
  split; [exact Hbb|].
  split; [apply ceil_div_Value; exact Hx|].
  split; [apply ceil_div_Value; exact Hy|].
  split; intros E.
  - rewrite (ceil_div_zero_extent _ _ _ _ _ E Hx). split; reflexivity.
  - rewrite (ceil_div_zero_extent _ _ _ _ _ E Hy). split; [reflexivity | lia].
Qed.

Lemma C3_block_counts_witness :
  __init__ five_points 2 2 1 = Value grid_five /\
  exists quotientX : Q,
    tdiv binary32
      (tsub binary32 (px (maxPoint grid_five)) (px (minPoint grid_five)))
      (scalar binary32 (2 - 1)) = Finite quotientX /\
    numBlocksX grid_five = Qceiling quotientX.
Proof.
  split; [exact init_five|].
  destruct (C3_block_counts five_points 2 2 1 grid_five init_five)
    as (_ & Hx & _).
  exact Hx.
Defined.




(** C6 (as stated, refuted): with block size 1 x 1 and margin 2, both
    strides are -1, and construction over a two-point cloud succeeds:
    it produces a grid with -1 blocks along each axis and length 1. *)
Lemma C6_negative_stride_constructs :
  2 >= 1 /\
  __init__ two_corners 1 1 2 <> Raise InvalidConfigurationError /\
  exists g, __init__ two_corners 1 1 2 = Value g /\
    numBlocksX g = (-1)%Z /\ numBlocksY g = (-1)%Z /\ __len__ g = 1%Z.
Proof.
  split; [vm_compute; discriminate|].
  rewrite init_corners. split; [discriminate|].
  exists grid_corners. repeat split; reflexivity.
Qed.

(** C6 (amended): construction never fails with
    [InvalidConfigurationError]. Over a non-empty cloud, with a margin
    above the block width or above the block height, construction is
    not rejected for its configuration: it succeeds whenever both
    float quotients of cloud size by stride are finite, and then the
    grid has a block count that is not positive along every axis of
    negative stride; otherwise it fails inside [math.ceil], with
    [OverflowError] or [ValueError]. *)
Theorem C6_margin_not_validated (d : Data) (blockX blockY c : Q) :
  __init__ d blockX blockY c <> Raise InvalidConfigurationError /\
  (pos d <> [] ->
   blockX < c \/ blockY < c ->
   ((exists g, __init__ d blockX blockY c = Value g /\
       (blockX < c -> (numBlocksX g <= 0)%Z) /\
       (blockY < c -> (numBlocksY g <= 0)%Z)) \/
    __init__ d blockX blockY c = Raise OverflowError \/
    __init__ d blockX blockY c = Raise ValueError) /\
   forall (mn mx : Point) (quotientX quotientY : Q),
     get_bounding_box d = Value (mn, mx) ->
     tdiv (dtype d) (tsub (dtype d) (px mx) (px mn))
          (scalar (dtype d) (blockX - c)) = Finite quotientX ->
     tdiv (dtype d) (tsub (dtype d) (py mx) (py mn))
          (scalar (dtype d) (blockY - c)) = Finite quotientY ->
     exists g, __init__ d blockX blockY c = Value g /\
       numBlocksX g = Qceiling quotientX /\
       numBlocksY g = Qceiling quotientY).
Proof.
  split; [apply init_not_invalid_configuration|].
  intros Hne _. split.
  - destruct (init_outcomes d blockX blockY c Hne) as [[g Hg]|Herr];
      [left | right; exact Herr].
    exists g. split; [exact Hg|].
    destruct (init_Value d blockX blockY c g Hg)
      as (mn & mx & nx & ny & Hbb & Hx & Hy & ->).
    destruct (bounding_box_ordered d mn mx Hbb) as [Hox Hoy].
    cbn [grid_of numBlocksX numBlocksY].
    split; intros Hneg.
    + apply (ceil_div_negative_stride _ _ _ _ _ Hox) in Hx; [exact Hx | lra].
    + apply (ceil_div_negative_stride _ _ _ _ _ Hoy) in Hy; [exact Hy | lra].
  - intros mn mx qx qy Hbb Hqx Hqy.
    unfold __init__. rewrite Hbb. cbn [bind]. unfold ceil_div.
    rewrite Hqx, Hqy. cbn [math_ceil bind].
    eexists. split; [reflexivity|]. split; reflexivity.
Qed.

Lemma C6_margin_not_validated_witness :
  pos two_corners <> [] /\ (1 < 2 \/ 1 < 2) /\
  exists g, __init__ two_corners 1 1 2 = Value g /\
    numBlocksX g = Qceiling (-1) /\ numBlocksY g = Qceiling (-1).
Proof.
  assert (Hne : pos two_corners <> []) by discriminate.
  assert (Hlt : 1 < 2) by reflexivity.
  split; [exact Hne|]. split; [left; exact Hlt|].
  apply (proj2 (proj2 (C6_margin_not_validated two_corners 1 1 2)
                  Hne (or_introl Hlt))
           (pt 0 0 0) (pt 1 1 0) (-1) (-1));
    vm_compute; reflexivity.
Defined.

(** *** Further behaviour of the block queries *)

Lemma select_from_ext (f g : Point -> bool) (l : list Point) (s : nat) :
  (forall p, In p l -> f p = g p) -> select_from s f l = select_from s g l.
Proof.
  revert s. induction l as [|p l IH]; intros s H; simpl.
  - reflexivity.
  - rewrite (H p (or_introl eq_refl)), (IH (S s)); [reflexivity|].
    intros q Hq. apply H. right; exact Hq.
Qed.

Lemma select_from_all (f : Point -> bool) (l : list Point) (s : nat) :
  (forall p, In p l -> f p = true) -> select_from s f l = seq s (length l).
Proof.
  revert s. induction l as [|p l IH]; intros s H; simpl.
  - reflexivity.
  - rewrite (H p (or_introl eq_refl)), (IH (S s)); [reflexivity|].
    intros q Hq. apply H. right; exact Hq.
Qed.

Lemma in_box_Qeq (lo hi lo' hi' : Q * Q) (p : Point) :
  fst lo == fst lo' -> snd lo == snd lo' ->
  fst hi == fst hi' -> snd hi == snd hi' ->
  in_box lo hi p = in_box lo' hi' p.
Proof.
  intros H1 H2 H3 H4.
  apply eq_true_iff_eq. rewrite !in_box_spec.
  rewrite H1, H2, H3, H4. tauto.
Qed.

(** X9: the membership query is monotone in its bounds: a box
    contained in another selects a sub-list of indices, and a box whose
    minimum is above its maximum on an axis selects nothing. *)
Theorem X9_membership_monotone
  (self : Grid2DPatchDataset) (xyMin xyMax xyMin' xyMax' : Q * Q) :
  (fst xyMin <= fst xyMin' -> snd xyMin <= snd xyMin' ->
   fst xyMax' <= fst xyMax -> snd xyMax' <= snd xyMax ->
   incl (_get_box_index_arr self xyMin' xyMax')
        (_get_box_index_arr self xyMin xyMax)) /\
  (fst xyMax < fst xyMin \/ snd xyMax < snd xyMin ->
   _get_box_index_arr self xyMin xyMax = []).
Proof.
  split.
  - intros H1 H2 H3 H4 i Hi.
    apply box_index_arr_In in Hi. apply box_index_arr_In.
    destruct Hi as (p & Hp & Hin). exists p. split; [exact Hp|].
    apply in_box_spec in Hin. apply in_box_spec. lra.
  - intros H. apply empty_of_no_member. intros i Hi.
    apply box_index_arr_In in Hi. destruct Hi as (p & _ & Hin).
    apply in_box_spec in Hin. lra.
Qed.

Lemma X9_membership_monotone_witness :
  (fst (0, 0) <= fst (1, 0) /\ snd (0, 0) <= snd (1, 0) /\
   fst (3, 2) <= fst (4, 3) /\ snd (3, 2) <= snd (4, 3)) /\
  incl (_get_box_index_arr grid_five (1, 0) (3, 2))
       (_get_box_index_arr grid_five (0, 0) (4, 3)).
Proof.
  assert (H1 : fst (0, 0) <= fst (1, 0)) by discriminate.
  assert (H2 : snd (0, 0) <= snd (1, 0)) by discriminate.
  assert (H3 : fst (3, 2) <= fst (4, 3)) by discriminate.
  assert (H4 : snd (3, 2) <= snd (4, 3)) by discriminate.
  split; [repeat split; assumption|].
  exact (proj1 (X9_membership_monotone grid_five (0, 0) (4, 3) (1, 0) (3, 2))
           H1 H2 H3 H4).
Defined.

(** X10: two membership queries intersect as the query over the
    intersection of their boxes: an index is selected by both exactly
    when it is selected by the box from the larger minima to the
    smaller maxima. *)
Theorem X10_membership_intersection
  (self : Grid2DPatchDataset) (lo1 hi1 lo2 hi2 : Q * Q) (i : nat) :
  In i (_get_box_index_arr self lo1 hi1) /\
  In i (_get_box_index_arr self lo2 hi2)
  <->
  In i (_get_box_index_arr self
          (Qmax (fst lo1) (fst lo2), Qmax (snd lo1) (snd lo2))
          (Qmin (fst hi1) (fst hi2), Qmin (snd hi1) (snd hi2))).
Proof.
  rewrite !box_index_arr_In. split.
  - intros [(p & Hp & H1) (q & Hq & H2)].
    assert (q = p) by congruence. subst q.
    exists p. split; [exact Hp|].
    apply in_box_spec in H1, H2. apply in_box_spec. cbn [fst snd].
    rewrite !Q.max_lub_iff, !Q.min_glb_iff. tauto.
  - intros (p & Hp & H). apply in_box_spec in H. cbn [fst snd] in H.
    rewrite !Q.max_lub_iff, !Q.min_glb_iff in H.
    split; exists p; (split; [exact Hp|]); apply in_box_spec; tauto.
Qed.

(** X11: queried with the footprint of its own bounding box, a
    constructed grid selects every point: the answer is
    [0, 1, ..., N-1]. *)
Theorem X11_bounding_box_selects_all
  (d : Data) (blockX blockY c : Q) (g : Grid2DPatchDataset) :
  __init__ d blockX blockY c = Value g ->
  _get_box_index_arr g (px (minPoint g), py (minPoint g))
                       (px (maxPoint g), py (maxPoint g))
  = arange (length (pos d)).
Proof.
  intros H.
  destruct (init_Value d blockX blockY c g H)
    as (mn & mx & nx & ny & Hbb & _ & _ & ->).
  cbn [grid_of minPoint maxPoint]. rewrite box_index_arr_select.
  cbn [grid_of data]. unfold arange. apply select_from_all.
  intros p Hp. apply in_box_spec. cbn [fst snd].
  exact (proj2 (bounding_box_contains d mn mx Hbb) p Hp).
Qed.

Lemma X11_bounding_box_selects_all_witness :
  __init__ five_points 2 2 1 = Value grid_five /\
  _get_box_index_arr grid_five (px (minPoint grid_five), py (minPoint grid_five))
                               (px (maxPoint grid_five), py (maxPoint grid_five))
  = [0; 1; 2; 3; 4]%nat.
Proof.
  split; [exact init_five|].
  exact (X11_bounding_box_selects_all five_points 2 2 1 grid_five init_five).
Defined.

(** X12: with a margin of zero the inner and the outer query of a
    block are the same query: they agree on every index, in value and
    in error. *)
Theorem X12_zero_margin_inner_is_outer
  (self : Grid2DPatchDataset) (idx : Z) :
  contextDist self == 0 ->
  _get_inner_block_index_arr self idx = _get_block_index_arr self idx.
Proof.
  intros Hc.
  unfold _get_inner_block_index_arr, _get_block_index_arr,
    _get_inner_bounds_for_idx.
  destruct (_get_bounds_for_idx self idx) as [[lo hi]| |e]; try reflexivity.
  cbn [bind fst snd]. f_equal. rewrite !box_index_arr_select.
  apply select_from_ext. intros p _.
  apply in_box_Qeq; cbn [fst snd]; rewrite Hc; ring.
Qed.

Lemma X12_zero_margin_inner_is_outer_witness :
  contextDist (grid_of five_points 2 2 0 (pt 0 0 (-2)) (pt 4 3 5) 2 2) == 0 /\
  _get_inner_block_index_arr
    (grid_of five_points 2 2 0 (pt 0 0 (-2)) (pt 4 3 5) 2 2) 1
  = Value [2; 4]%nat.
Proof.
  assert (H : contextDist (grid_of five_points 2 2 0 (pt 0 0 (-2)) (pt 4 3 5) 2 2) == 0)
    by reflexivity.
  split; [exact H|].
  rewrite (X12_zero_margin_inner_is_outer _ 1 H). vm_compute. reflexivity.
Defined.



End Grid.

(** ** BaseBallPointCloud: queries on a spatial index *)

Module Ball.

Import Grid.

Local Open Scope Q_scope.

(** What a search answers: the number of neighbours found, their
    indices and their squared distances. *)
Definition Neighbours : Type := (Z * list nat * list Q)%type.

(** The index object held in [self.kdtree], as the class uses it: two
    search methods. *)
Record KDTree : Type := {
  search_radius_vector_3d : Point -> Q -> result Neighbours;
  search_knn_vector_3d : Point -> Z -> result Neighbours
}.

Record BaseBallPointCloud : Type := {
  data : Data;
  kdtree : KDTree
}.

(** *** The spatial index *)

(** Stable insertion sort by a boolean order. *)
Section Sorting.

Variable A : Type.
Variable leb : A -> A -> bool.

Fixpoint insert (a : A) (l : list A) : list A :=
  match l with
  | [] => [a]
  | h :: t => if leb a h then a :: h :: t else h :: insert a t
  end.

Fixpoint isort (l : list A) : list A :=
  match l with
  | [] => []
  | h :: t => insert h (isort t)
  end.

Lemma insert_perm (a : A) (l : list A) : Permutation (insert a l) (a :: l).
Proof.
  induction l as [|h t IH]; simpl.
  - apply Permutation_refl.
  - destruct (leb a h).
    + apply Permutation_refl.
    + eapply perm_trans; [apply perm_skip, IH | apply perm_swap].
Qed.

Lemma isort_perm (l : list A) : Permutation (isort l) l.
Proof.
  induction l as [|h t IH]; simpl.
  - apply perm_nil.
  - eapply perm_trans; [apply insert_perm | apply perm_skip, IH].
Qed.

Hypothesis leb_total : forall a b, leb a b = true \/ leb b a = true.
Hypothesis leb_trans :
  forall a b c, leb a b = true -> leb b c = true -> leb a c = true.

Lemma insert_sorted (a : A) (l : list A) :
  StronglySorted (fun u v => leb u v = true) l ->
  StronglySorted (fun u v => leb u v = true) (insert a l).
Proof.
  induction 1 as [|h t Ht IH Hall]; simpl.
  - constructor; constructor.
  - destruct (leb a h) eqn:E.
    + constructor; [constructor; assumption|].
      constructor; [exact E|].
      eapply Forall_impl; [|exact Hall].
      intros v Hv. exact (leb_trans a h v E Hv).
    + constructor; [exact IH|].
      assert (Hha : leb h a = true)
        by (destruct (leb_total a h); congruence).
      apply Forall_forall. intros v Hv.
      apply (Permutation_in _ (insert_perm a t)) in Hv.
      destruct Hv as [<-|Hv]; [exact Hha|].
      rewrite Forall_forall in Hall. exact (Hall v Hv).
Qed.

Lemma isort_sorted (l : list A) :
  StronglySorted (fun u v => leb u v = true) (isort l).
Proof.
  induction l as [|h t IH]; simpl; [constructor | apply insert_sorted, IH].
Qed.

End Sorting.

Arguments insert {A} leb a l.
Arguments isort {A} leb l.

(** Modelled from the spec: the squared Euclidean distance in 3D that
    the searches report (section 4.4); the index computing it is built
    by [build_kdtree], which is absent. *)
Definition sqdist (a b : Point) : Q :=
  (px a - px b) * (px a - px b) + (py a - py b) * (py a - py b)
  + (pz a - pz b) * (pz a - pz b).

(** Modelled from the spec: the squared distance from [center] to the
    point of index [i], as the absent index reports it. *)
Definition dist2_to (center : Point) (l : list Point) (i : nat) : Q :=
  match nth_error l i with
  | Some p => sqdist center p
  | None => 0
  end.

(** Modelled from the spec: the order of the k-nearest-neighbour
    answer, "increasing distance, ties broken by increasing original
    index" (section 4.4); part of the absent index. *)
Definition closerb (center : Point) (l : list Point) (i j : nat) : bool :=
  match Qcompare (dist2_to center l i) (dist2_to center l j) with
  | Lt => true
  | Eq => (i <=? j)%nat
  | Gt => false
  end.

(** Modelled from the spec: all indices of the cloud, nearest first, in
    the order of section 4.4; part of the absent index. *)
Definition ranking (center : Point) (l : list Point) : list nat :=
  isort (closerb center l) (seq 0 (length l)).

(** Modelled from the spec: the index object that [build_kdtree]
    returns; [build_kdtree] belongs to [utils.pointcloud_utils], which
    is absent (its import is commented out). After section 4.4: the
    radius search answers every point within [radius], inclusive; the
    k-nearest search fails with [InsufficientPointsError] if [k]
    exceeds the cloud size and otherwise answers the [k] closest
    points, nearest first, ties by increasing index. *)
Definition index_of (l : list Point) : KDTree :=
  {| search_radius_vector_3d := fun center radius =>
       let found :=
         filter (fun i => Qle_bool 0 radius
                          && Qle_bool (dist2_to center l i) (radius * radius))
                (seq 0 (length l)) in
       Value (Z.of_nat (length found), found, map (dist2_to center l) found);
     search_knn_vector_3d := fun center k =>
       if (Z.of_nat (length l) <? k)%Z then Raise InsufficientPointsError
       else
         let found := firstn (Z.to_nat k) (ranking center l) in
         Value (Z.of_nat (length found), found, map (dist2_to center l) found) |}.

(** Modelled from the spec: [build_kdtree] of [utils.pointcloud_utils],
    absent from this module. After section 4.4: "built once from a
    cloud's positions. Construction fails with [EmptyInputError] on an
    empty cloud". *)
Definition build_kdtree (cloud : Data) : result KDTree :=
  match pos cloud with
  | [] => Raise EmptyInputError
  | l => Value (index_of l)
  end.

(** *** The class *)

(** [__init__]: keep the data, build the index. *)
Definition __init__ (d : Data) : result BaseBallPointCloud :=
  tree <- build_kdtree d ;;
  Value {| data := d; kdtree := tree |}.

(** [radius_query]: call the index, unpack the triple, return it. *)
Definition radius_query (self : BaseBallPointCloud) (point : Point) (radius : Q)
  : result Neighbours :=
  r <- search_radius_vector_3d (kdtree self) point radius ;;
  let '(k, indices, dist2) := r in
  Value (k, indices, dist2).

(** [knn_query]: likewise. *)
Definition knn_query (self : BaseBallPointCloud) (point : Point) (k : Z)
  : result Neighbours :=
  r <- search_knn_vector_3d (kdtree self) point k ;;
  let '(k, indices, dist2) := r in
  Value (k, indices, dist2).

(** Index [i] comes strictly before index [j] in the answer: it is
    nearer, or as near with a smaller index. *)
Definition closer (center : Point) (l : list Point) (i j : nat) : Prop :=
  dist2_to center l i < dist2_to center l j \/
  (dist2_to center l i == dist2_to center l j /\ (i < j)%nat).

Example knn_five_points :
  (r <- __init__ five_points ;; knn_query r (pt 0 0 0) 3)
  = Value (3%Z, [0; 4; 3]%nat, [0; inject_Z 13; inject_Z 14]).
Proof. vm_compute. reflexivity. Qed.

Example knn_too_many :
  (r <- __init__ five_points ;; knn_query r (pt 0 0 0) 6)
  = Raise InsufficientPointsError.
Proof. vm_compute. reflexivity. Qed.

(** *** Facts on the ranking *)

Lemma closerb_spec (center : Point) (l : list Point) (i j : nat) :
  closerb center l i j = true <->
  dist2_to center l i < dist2_to center l j \/
  (dist2_to center l i == dist2_to center l j /\ (i <= j)%nat).
Proof.
  unfold closerb.
  destruct (Qcompare (dist2_to center l i) (dist2_to center l j)) eqn:E.
  - apply Qeq_alt in E. rewrite Nat.leb_le. split.
    + intros H. right. split; assumption.
    + intros [H|[_ H]]; [rewrite E in H; exfalso; exact (Qlt_irrefl _ H) | exact H].
  - apply Qlt_alt in E. split; [intros _; left; exact E | reflexivity].
  - apply Qgt_alt in E. split; [discriminate|].
    intros [H|[H _]]; exfalso.
    + exact (Qlt_irrefl _ (Qlt_trans _ _ _ H E)).
    + rewrite H in E. exact (Qlt_irrefl _ E).
Qed.

Lemma closerb_total (center : Point) (l : list Point) (i j : nat) :
  closerb center l i j = true \/ closerb center l j i = true.
Proof.
  rewrite !closerb_spec.
  destruct (Q_dec (dist2_to center l i) (dist2_to center l j)) as [[H|H]|H].
  - left; left; exact H.
  - right; left; exact H.
  - destruct (Nat.le_ge_cases i j).
    + left; right; split; assumption.
    + right; right; split; [symmetry; exact H | assumption].
Qed.

Lemma closerb_trans (center : Point) (l : list Point) (i j k : nat) :
  closerb center l i j = true -> closerb center l j k = true ->
  closerb center l i k = true.
Proof.
  rewrite !closerb_spec.
  intros [H1|[H1 L1]] [H2|[H2 L2]].
  - left. exact (Qlt_trans _ _ _ H1 H2).
  - left. rewrite <- H2. exact H1.
  - left. rewrite H1. exact H2.
  - right. split; [rewrite H1; exact H2 | lia].
Qed.

Lemma closerb_strict (center : Point) (l : list Point) (i j : nat) :
  closerb center l i j = true -> i <> j -> closer center l i j.
Proof.
  rewrite closerb_spec. unfold closer.
  intros [H|[H L]] Hne; [left; exact H | right; split; [exact H | lia]].
Qed.

Lemma ranking_perm (center : Point) (l : list Point) :
  Permutation (ranking center l) (seq 0 (length l)).
Proof. apply isort_perm. Qed.

Lemma ranking_sorted (center : Point) (l : list Point) :
  StronglySorted (fun i j => closerb center l i j = true) (ranking center l).
Proof.
  apply isort_sorted; [apply closerb_total | apply closerb_trans].
Qed.

Lemma ranking_NoDup (center : Point) (l : list Point) :
  NoDup (ranking center l).
Proof.
  eapply Permutation_NoDup; [apply Permutation_sym, ranking_perm|].
  apply seq_NoDup.
Qed.

Lemma ranking_In (center : Point) (l : list Point) (i : nat) :
  In i (ranking center l) <-> (i < length l)%nat.
Proof.
  split; intros H.
  - apply (Permutation_in _ (ranking_perm center l)) in H.
    apply in_seq in H. lia.
  - apply (Permutation_in _ (Permutation_sym (ranking_perm center l))).
    apply in_seq. lia.
Qed.

(** In a sorted list every element of a prefix is before every element
    of the rest. *)
Lemma sorted_app_cross (R : nat -> nat -> Prop) (l1 l2 : list nat) :
  StronglySorted R (l1 ++ l2) ->
  StronglySorted R l1 /\
  forall u v, In u l1 -> In v l2 -> R u v.
Proof.
  induction l1 as [|a l1 IH]; simpl; intros H.
  - split; [constructor | intros u v []].
  - inversion H as [|? ? Hs Hall]; subst.
    destruct (IH Hs) as [Hs1 Hcross].
    rewrite Forall_forall in Hall. split.
    + constructor; [exact Hs1|]. apply Forall_forall.
      intros v Hv. apply Hall. apply in_or_app. left; exact Hv.
    + intros u v [<-|Hu] Hv.
      * apply Hall. apply in_or_app. right; exact Hv.
      * exact (Hcross u v Hu Hv).
Qed.

(** A sorted list without repetition is strictly sorted. *)
Lemma sorted_strict (center : Point) (l : list Point) (idxs : list nat) :
  StronglySorted (fun i j => closerb center l i j = true) idxs ->
  NoDup idxs ->
  StronglySorted (closer center l) idxs.
Proof.
  induction 1 as [|a t Ht IH Hall]; intros Hnd; [constructor|].
  inversion Hnd as [|? ? Hnotin Hnd']; subst.
  constructor; [exact (IH Hnd')|].
  rewrite Forall_forall in Hall. apply Forall_forall. intros v Hv.
  apply closerb_strict; [exact (Hall v Hv)|].
  intros ->. contradiction.
Qed.

(** The first [n] of the ranking: the answer of the search. *)
Lemma nearest_prefix (center : Point) (l : list Point) (n : nat) :
  (n <= length l)%nat ->
  let found := firstn n (ranking center l) in
  length found = n /\
  Forall (fun i => (i < length l)%nat) found /\
  NoDup found /\
  StronglySorted (closer center l) found /\
  forall i j, In i found -> (j < length l)%nat -> ~ In j found ->
              closer center l i j.
Proof.
  intros Hn found.
  pose proof (ranking_sorted center l) as Hs.
  pose proof (ranking_NoDup center l) as Hnd.
  rewrite <- (firstn_skipn n (ranking center l)) in Hs, Hnd.
  fold found in Hs, Hnd.
  destruct (sorted_app_cross _ _ _ Hs) as [Hs1 Hcross].
  assert (Hnd1 : NoDup found) by (exact (NoDup_app_remove_r _ _ Hnd)).
  split.
  { unfold found. apply firstn_length_le.
    rewrite (Permutation_length (ranking_perm center l)), length_seq. exact Hn. }
  split.
  { apply Forall_forall. intros i Hi. apply (ranking_In center l).
    rewrite <- (firstn_skipn n (ranking center l)). apply in_or_app.
    left; exact Hi. }
  split; [exact Hnd1|].
  split; [exact (sorted_strict center l found Hs1 Hnd1)|].
  intros i j Hi Hj Hnot.
  assert (Hjr : In j (firstn n (ranking center l) ++ skipn n (ranking center l))).
  { rewrite firstn_skipn. apply ranking_In. exact Hj. }
  apply in_app_or in Hjr. destruct Hjr as [Hjf|Hjs]; [contradiction|].
  apply closerb_strict; [exact (Hcross i j Hi Hjs)|].
  intros ->. contradiction.
Qed.

Lemma ball_init_Value (d : Data) (self : BaseBallPointCloud) :
  __init__ d = Value self ->
  pos d <> [] /\ self = {| data := d; kdtree := index_of (pos d) |}.
Proof.
  unfold __init__, build_kdtree.
  destruct (pos d) as [|p l] eqn:E; cbn [bind]; [discriminate|].
  intros [= <-]. split; [discriminate | reflexivity].
Qed.

(** *** Claim on the k-nearest-neighbour query *)

(** C7: on a constructed ball cloud of N points, whose index is the one
    modelled from the spec, for every centre and every [k]: if [k > N]
    the query fails with
    [InsufficientPointsError]; otherwise it returns [k] indices of the
    cloud ([max(0, k)] of them), with their squared Euclidean distances
    in 3D, ordered by increasing distance with ties by increasing
    index, and they are the closest: each returned point comes before
    each point left out, in that same order. *)
Theorem C7_knn_query_contract
  (d : Data) (self : BaseBallPointCloud) (center : Point) (k : Z) :
  __init__ d = Value self ->
  ((Z.of_nat (length (pos d)) < k)%Z ->
   knn_query self center k = Raise InsufficientPointsError) /\
  ((k <= Z.of_nat (length (pos d)))%Z ->
   exists indices : list nat,
     knn_query self center k
     = Value (Z.max 0 k, indices, map (dist2_to center (pos d)) indices) /\
     Z.of_nat (length indices) = Z.max 0 k /\
     Forall (fun i => (i < length (pos d))%nat) indices /\
     NoDup indices /\
     StronglySorted (closer center (pos d)) indices /\
     forall i j, In i indices -> (j < length (pos d))%nat -> ~ In j indices ->
                 closer center (pos d) i j).
Proof.
  intros H. destruct (ball_init_Value d self H) as [_ ->].
  unfold knn_query. cbn [kdtree index_of search_knn_vector_3d].
  split; intros Hk.
  - apply Z.ltb_lt in Hk. rewrite Hk. reflexivity.
  - assert (Hb : (Z.of_nat (length (pos d)) <? k)%Z = false)
      by (apply Z.ltb_ge; exact Hk).
    rewrite Hb. cbn [bind].
    assert (Hn : (Z.to_nat k <= length (pos d))%nat) by lia.
    destruct (nearest_prefix center (pos d) (Z.to_nat k) Hn)
      as (Hlen & Hall & Hnd & Hs & Hclosest).
    exists (firstn (Z.to_nat k) (ranking center (pos d))).
    rewrite Hlen.
    assert (E : Z.of_nat (Z.to_nat k) = Z.max 0 k) by lia.
    rewrite E. repeat split; assumption.
Qed.

Lemma C7_knn_query_contract_witness :
  __init__ five_points
  = Value {| data := five_points; kdtree := index_of (pos five_points) |} /\
  knn_query {| data := five_points; kdtree := index_of (pos five_points) |}
            (pt 0 0 0) 6
  = Raise InsufficientPointsError.
Proof.
  assert (H : __init__ five_points
              = Value {| data := five_points;
                         kdtree := index_of (pos five_points) |})
    by reflexivity.
  split; [exact H|].
  apply (proj1 (C7_knn_query_contract five_points _ (pt 0 0 0) 6 H)).
  reflexivity.
Defined.

End Ball.
